(** * Rejection sampling: [samplers._rejection_sampler]

    A shallow embedding of [ProposalDistribution] and [rejection_sampler]
    (src/samplers/_rejection_sampler.py) and the properties the
    specification states about them.

    Python values are modelled as they are used by the sampler:
    - [int] is [Z], [bool] is a subtype of [int], [float] is an IEEE 754
      binary64 number (Rocq's primitive [float]);
    - [numpy.float64], which scipy's [rvs] and [pdf] return, is a binary64
      number as well, told apart from [float] because its arithmetic is
      numpy's: a division by zero gives [inf] or [nan] and does not raise;
    - exceptions are values of [exn], and a computation that may raise has a
      [result];
    - the process-wide pseudorandom generator is an abstract state [G] that
      every draw threads through; [uniform().rvs()] is a transition on it;
    - instances of [ProposalDistribution] live in a heap and are passed by
      reference, their [__dict__] is a finite map from attribute names;
    - [numpy.empty] hands out a buffer whose contents are whatever the
      allocator left there. *)

From Stdlib Require Import ZArith Floats Lia.
From stdpp Require Import gmap strings list.

Open Scope Z_scope.

(** ** Exceptions and results *)

Inductive exn :=
| TypeError (msg : string)
| ValueError (msg : string)
| AttributeError (name : string)
| IndexError
| ZeroDivisionError
| OverflowError
| RecursionError
| UserException (msg : string).

Inductive result (A : Type) :=
| Ok (a : A)
| Raise (e : exn).
Arguments Ok {A} a.
Arguments Raise {A} e.

Definition result_bind {A B} (r : result A) (k : A -> result B) : result B :=
  match r with
  | Ok a => k a
  | Raise e => Raise e
  end.

(** ** Python numbers *)

Inductive num :=
| NBool (b : bool)
| NInt (z : Z)
| NFloat (x : float).

(** The two arithmetic kinds: [bool] takes part in arithmetic as the
    integers 0 and 1. *)
Inductive scalar :=
| SInt (z : Z)
| SFloat (x : float).

Definition int_of_bool (b : bool) : Z := if b then 1 else 0.

Definition scalar_of (a : num) : scalar :=
  match a with
  | NBool b => SInt (int_of_bool b)
  | NInt z => SInt z
  | NFloat x => SFloat x
  end.

(** [float(z)]: the nearest binary64 number, ties to even; an integer that
    rounds beyond the largest finite float raises [OverflowError]. *)
Definition float_of_int (z : Z) : result float :=
  let x := SF2Prim (binary_normalize prec emax z 0 false) in
  if is_infinity x then Raise OverflowError else Ok x.

Definition to_float (a : num) : result float :=
  match scalar_of a with
  | SInt z => float_of_int z
  | SFloat x => Ok x
  end.

(** [a * b] between two Python numbers *)
Definition py_mul (a b : num) : result num :=
  match scalar_of a, scalar_of b with
  | SInt x, SInt y => Ok (NInt (x * y))
  | _, _ =>
      result_bind (to_float a) (fun x =>
      result_bind (to_float b) (fun y =>
      Ok (NFloat (x * y)%float)))
  end.

(** [a / b] on two integers: the correctly rounded quotient. The numerator
    is scaled until the integer quotient has more than 55 bits, and the
    remainder is kept as a sticky bit below it, so that rounding the scaled
    quotient rounds the exact one. *)
Definition int_true_divide (a b : Z) : result float :=
  if b =? 0 then Raise ZeroDivisionError
  else
    let negate := xorb (a <? 0) (b <? 0) in
    let n := Z.abs a in
    let d := Z.abs b in
    let k := Z.max 0 (57 + Z.log2 d - Z.log2 n) in
    let q := (n * 2 ^ k) / d in
    let sticky := if (n * 2 ^ k) mod d =? 0 then 0 else 1 in
    let m := 2 * q + sticky in
    let x := SF2Prim (binary_normalize prec emax
                        (if negate then - m else m) (- k - 1) negate) in
    if is_infinity x then Raise OverflowError else Ok x.

(** [a / b] between two Python numbers: true division. Both operands are
    converted first, then a zero divisor raises [ZeroDivisionError]. *)
Definition py_truediv (a b : num) : result num :=
  match scalar_of a, scalar_of b with
  | SInt x, SInt y =>
      result_bind (int_true_divide x y) (fun q => Ok (NFloat q))
  | _, _ =>
      result_bind (to_float a) (fun x =>
      result_bind (to_float b) (fun y =>
      if is_zero y then Raise ZeroDivisionError
      else Ok (NFloat (x / y)%float)))
  end.

(** Comparison of an integer with a float is exact: the float is not
    rounded to an integer nor the integer to a float. *)
Definition cmp_int_float (z : Z) (y : float) : option comparison :=
  match Prim2SF y with
  | S754_nan => None
  | S754_zero _ => Some (z ?= 0)
  | S754_infinity s => Some (if s then Gt else Lt)
  | S754_finite s m e =>
      let v := if s then Zneg m else Zpos m in
      Some (if 0 <=? e then z ?= v * 2 ^ e else z * 2 ^ (- e) ?= v)
  end.

(** [a <= b] *)
Definition py_le (a b : num) : bool :=
  match scalar_of a, scalar_of b with
  | SInt x, SInt y => x <=? y
  | SFloat x, SFloat y => (x <=? y)%float
  | SInt x, SFloat y =>
      match cmp_int_float x y with
      | Some Lt | Some Eq => true
      | _ => false
      end
  | SFloat x, SInt y =>
      match cmp_int_float y x with
      | Some Gt | Some Eq => true
      | _ => false
      end
  end.

(** [a < b] *)
Definition py_lt (a b : num) : bool :=
  match scalar_of a, scalar_of b with
  | SInt x, SInt y => x <? y
  | SFloat x, SFloat y => (x <? y)%float
  | SInt x, SFloat y =>
      match cmp_int_float x y with
      | Some Lt => true
      | _ => false
      end
  | SFloat x, SInt y =>
      match cmp_int_float y x with
      | Some Gt => true
      | _ => false
      end
  end.

(** [a > b] *)
Definition py_gt (a b : num) : bool := py_lt b a.

(** [a == 0] for a number, whatever its type. *)
Definition py_is_zero (a : num) : bool :=
  match scalar_of a with
  | SInt z => z =? 0
  | SFloat x => is_zero x
  end.

(** An integer that every iteration count allowed by the budget stays
    below or equal to, when there is one: none for [inf] and for [nan],
    which no count exceeds. *)
Definition budget_ceiling (MMN : num) : option Z :=
  match scalar_of MMN with
  | SInt z => Some z
  | SFloat y =>
      match Prim2SF y with
      | S754_nan => None
      | S754_infinity s => if s then Some 0 else None
      | S754_zero _ => Some 0
      | S754_finite s m e =>
          Some (if s then 0
                else if 0 <=? e then Zpos m * 2 ^ e else Zpos m / 2 ^ (- e))
      end
  end.

(** ** numpy scalars

    [scipy.stats] distributions return [numpy.float64] from [rvs()] and
    from [pdf(x)]. It is a subclass of [float], so a binary operator with
    a [numpy.float64] on either side is numpy's: a Python [int] on the left
    does not know the type and returns [NotImplemented], a Python [float]
    on the left gives way to the subclass, and in both cases the scalar's
    reflected method runs. What a callable takes and returns is a Python
    number or such a scalar. *)
Inductive val :=
| Py (a : num)
| Float64 (x : float).

(** The number a value stands for, whatever its type. *)
Definition num_of (v : val) : num :=
  match v with
  | Py a => a
  | Float64 x => NFloat x
  end.

Definition is_float64 (v : val) : bool :=
  match v with
  | Py _ => false
  | Float64 _ => true
  end.

(** The value as a binary64 operand, and [float(v)]. *)
Definition float_of (v : val) : result float := to_float (num_of v).

(** [a * b]: Python's between two Python numbers; numpy's, in [float64],
    when either operand is a [numpy.float64], the other operand converted
    as by [float]. *)
Definition val_mul (a b : val) : result val :=
  match a, b with
  | Py a, Py b => result_bind (py_mul a b) (fun c => Ok (Py c))
  | _, _ =>
      result_bind (float_of a) (fun x =>
      result_bind (float_of b) (fun y =>
      Ok (Float64 (x * y)%float)))
  end.

(** [a / b]: Python's between two Python numbers, which raises on a zero
    divisor; numpy's when either operand is a [numpy.float64], which
    follows IEEE 754: on a zero divisor it gives [inf] or [nan], with a
    [RuntimeWarning], and raises nothing. *)
Definition val_truediv (a b : val) : result val :=
  match a, b with
  | Py a, Py b => result_bind (py_truediv a b) (fun c => Ok (Py c))
  | _, _ =>
      result_bind (float_of a) (fun x =>
      result_bind (float_of b) (fun y =>
      Ok (Float64 (x / y)%float)))
  end.

(** [a <= b] *)
Definition val_le (a b : val) : bool := py_le (num_of a) (num_of b).

(** ** Objects, the heap and the generator *)

Section Sampler.

(** The state of the process-wide pseudorandom generator. *)
Context {G : Type}.

(** [scipy.stats.uniform().rvs()]: one draw from Uniform(0,1), which
    advances the generator. *)
Variable uniform_rvs : G -> float * G.

(** The body of a callable: it receives numbers, may draw from the
    generator, and returns a number or raises. *)
Definition code : Type := list val -> G -> result val * G.

(** Which of Python's callable types an object has. [FunctionType] is the
    type of [def] functions and lambdas; bound methods such as
    [norm().pdf] have [MethodType], [math.exp] and the like have
    [BuiltinFunctionType]. *)
Inductive callable_kind :=
| FunctionType
| MethodType
| BuiltinFunctionType.

(** A frozen distribution ([scipy.stats.norm()], [uniform(2, 3)]): a
    distribution family with its parameters fixed. *)
Record rv_frozen := { rvs : code; pdf : code }.

(** An instance of [scipy.stats.rv_continuous] ([norm], [uniform],
    [gamma], ...). Calling it with parameters freezes it; a family with a
    required shape parameter raises when the parameter is missing. *)
Record rv_continuous := { freeze : list num -> result rv_frozen }.

Inductive pyobj :=
| VNone
| VNum (a : num)
| VStr (s : string)
| VList (l : list num)
| VCallable (kind : callable_kind) (body : code)
| VInstance (l : nat)            (* a ProposalDistribution, by reference *)
| VRvContinuous (d : rv_continuous)
| VRvFrozen (fr : rv_frozen).

Record world := World {
  rng : G;                                (* the shared generator *)
  heap : list (gmap string pyobj);        (* the __dict__ of every instance *)
  uninit : nat -> float;                  (* contents of fresh memory *)
}.

(** Computations: they read and change the world and may raise; what was
    changed before an exception stays changed. *)
Definition prog (A : Type) : Type := world -> result A * world.

Definition ret {A} (a : A) : prog A := fun w => (Ok a, w).

Definition raise {A} (e : exn) : prog A := fun w => (Raise e, w).

Definition bind {A B} (c : prog A) (k : A -> prog B) : prog B :=
  fun w =>
    match c w with
    | (Ok a, w') => k a w'
    | (Raise e, w') => (Raise e, w')
    end.

Definition lift {A} (r : result A) : prog A := fun w => (r, w).

Notation "x <- c ;; k" := (bind c (fun x => k))
  (at level 100, c at next level, right associativity).
Notation "c ;;; k" := (bind c (fun _ => k))
  (at level 100, k at level 200, right associativity).

(** Running a callable's body on the shared generator. *)
Definition run_code (body : code) (args : list val) : prog val :=
  fun w =>
    let (r, s) := body args (rng w) in
    (r, World s (heap w) (uninit w)).

Definition uniform : prog float :=
  fun w =>
    let (u, s) := uniform_rvs (rng w) in
    (Ok u, World s (heap w) (uninit w)).

(** [callable(v)] *)
Definition is_callable (v : pyobj) : bool :=
  match v with
  | VCallable _ _ | VRvContinuous _ => true
  | _ => false
  end.

(** [v( *args)] where a number is expected back. Calling a distribution
    family yields a frozen distribution, which is no number; the numeric
    code that receives it fails with a [TypeError]. *)
Definition call (v : pyobj) (args : list val) : prog val :=
  match v with
  | VCallable _ body => run_code body args
  | VNone => raise (TypeError "'NoneType' object is not callable")
  | VRvContinuous _ => raise (TypeError "unsupported operand type(s)")
  | _ => raise (TypeError "object is not callable")
  end.

(** ** class ProposalDistribution *)

(** The names the class body defines besides [__init__]. *)
Definition methods : list string := ["from_scipy"; "sample"; "density"].

(** [self.name = v] *)
Definition setattr (self : nat) (name : string) (v : pyobj) : prog unit :=
  fun w =>
    (Ok tt, World (rng w) (alter (insert name v) self (heap w)) (uninit w)).

(** [__init__(self, sampler=None, density=None)] *)
Definition __init__ (self : nat) (sampler density : pyobj) : prog unit :=
  setattr self "sample" sampler ;;;
  setattr self "density" density.

(** [ProposalDistribution(sampler, density)]: a new instance with an
    empty [__dict__], initialised by [__init__]; the result is the
    reference to it. *)
Definition ProposalDistribution (sampler density : pyobj) : prog nat :=
  fun w =>
    let self := length (heap w) in
    (__init__ self sampler density ;;; ret self)
      (World (rng w) (heap w ++ [∅]) (uninit w)).

(** [from_scipy(self, scipy_distribution, *args)]; it ends in
    [return self]. *)
Definition from_scipy (self : nat) (scipy_distribution : rv_continuous)
    (args : list num) : prog nat :=
  fr <- lift (freeze scipy_distribution args) ;;
  setattr self "sample" (VCallable MethodType (rvs fr)) ;;;
  fr <- lift (freeze scipy_distribution args) ;;
  setattr self "density" (VCallable MethodType (pdf fr)) ;;;
  ret self.

(** Where an attribute reference [self.name] is found. Functions defined
    in a class body are non-data descriptors, so the instance's
    [__dict__] is searched first and the class after it. *)
Inductive attr :=
| InstanceAttr (v : pyobj)
| ClassAttr (name : string)
| NoAttr.

Definition lookup (w : world) (self : nat) (name : string) : attr :=
  match heap w !! self with
  | Some d =>
      match d !! name with
      | Some v => InstanceAttr v
      | None =>
          if bool_decide (name ∈ methods) then ClassAttr name else NoAttr
      end
  | None => NoAttr
  end.

(** [self.name( *args)] for [name] one of [sample], [density]. The
    methods of the class are

      def sample(self, *args, **kwargs):
          return self.sample( *args, **kwargs)

    so a call that resolves to the class looks the same name up again on
    the same instance and re-enters itself until the interpreter's
    recursion limit. *)
Definition call_method (self : nat) (name : string) (args : list val)
    : prog val :=
  fun w =>
    match lookup w self name with
    | InstanceAttr v => call v args w
    | ClassAttr _ => (Raise RecursionError, w)
    | NoAttr => (Raise (AttributeError name), w)
    end.


(** [g.name( *args)] on any object; only instances of
    [ProposalDistribution] carry [sample] and [density]. *)
Definition call_attr (g : pyobj) (name : string) (args : list val)
    : prog val :=
  match g with
  | VInstance self => call_method self name args
  | _ => raise (AttributeError name)
  end.

(** ** numpy arrays of float64 *)

(** [numpy.empty(N)]: a new array of [N] float64 slots, not initialised.
    numpy takes a shape from a Python [int] only; it refuses a [bool] and a
    [float], and a negative length. *)
Definition empty (N : num) : prog (list float) :=
  fun w =>
    match N with
    | NInt n =>
        if n <? 0 then
          (Raise (ValueError "negative dimensions are not allowed"), w)
        else (Ok (map (uninit w) (seq 0 (Z.to_nat n))), w)
    | _ =>
        (Raise (TypeError
           "expected a sequence of integers or a single integer"), w)
    end.

(** [samples[n] = x]: the value is converted to float64 and written in
    place. *)
Definition setitem (samples : list float) (n : Z) (x : val)
    : result (list float) :=
  result_bind (float_of x) (fun v =>
  if (0 <=? n) && (n <? Z.of_nat (length samples)) then
    Ok (<[Z.to_nat n := v]> samples)
  else Raise IndexError).

(** ** rejection_sampler *)

(** [isinstance(f, types.FunctionType)] *)
Definition isinstance_FunctionType (f : pyobj) : bool :=
  match f with
  | VCallable FunctionType _ => true
  | _ => false
  end.

(** [isinstance(g, ProposalDistribution)] *)
Definition isinstance_ProposalDistribution (g : pyobj) : bool :=
  match g with
  | VInstance _ => true
  | _ => false
  end.

(** [isinstance(g, rv_continuous)] *)
Definition isinstance_rv_continuous (g : pyobj) : bool :=
  match g with
  | VRvContinuous _ => true
  | _ => false
  end.

(** [isinstance(M, Union[int, float])]; [bool] is a subclass of [int]. *)
Definition isinstance_int_or_float (M : pyobj) : bool :=
  match M with
  | VNum _ => true
  | _ => false
  end.

(** [isinstance(N, int)] *)
Definition isinstance_int (N : pyobj) : bool :=
  match N with
  | VNum (NBool _) | VNum (NInt _) => true
  | _ => false
  end.

(** The helper [proposal(x)] of [rejection_sampler]:
    [f(x) / (M * g.density(x))], operands evaluated left to right. *)
Definition proposal (f g : pyobj) (M : num) (x : val) : prog val :=
  fx <- call f [x] ;;
  d <- call_attr g "density" [x] ;;
  Md <- lift (val_mul (Py M) d) ;;
  lift (val_truediv fx Md).

(** One pass through the draws of the loop body:
      x = g.sample()
      u = uniform().rvs()
      ... u <= proposal(x) ...
    It returns the candidate, the uniform draw and whether the candidate
    passed the test. *)
Definition trial (f g : pyobj) (M : num) : prog (val * float * bool) :=
  x <- call_attr g "sample" [] ;;
  u <- uniform ;;
  r <- proposal f g M x ;;
  ret (x, u, val_le (Float64 u) r).

(** The iteration budget [M * M * N] as the loop evaluates it. *)
Definition budget (M N : num) : result num :=
  result_bind (py_mul M M) (fun MM => py_mul MM N).

(** The [while n < N] loop. [fuel] bounds the number of times the loop
    condition is evaluated; [None] means the fuel ran out with the loop
    still running. *)
Fixpoint sampling_loop (fuel : nat) (f g : pyobj) (M N : num)
    (samples : list float) (n k : Z) (w : world)
    : option (result (list float) * world) :=
  match fuel with
  | O => None
  | S fuel =>
      if negb (py_lt (NInt n) N) then Some (Ok samples, w)
      else
        match budget M N with
        | Raise e => Some (Raise e, w)
        | Ok MMN =>
            if py_gt (NInt k) MMN then Some (Ok samples, w)
            else
              let k := k + 1 in
              match trial f g M w with
              | (Raise e, w) => Some (Raise e, w)
              | (Ok (x, u, true), w) =>
                  match setitem samples n x with
                  | Raise e => Some (Raise e, w)
                  | Ok samples => sampling_loop fuel f g M N samples (n + 1) k w
                  end
              | (Ok (x, u, false), w) =>
                  sampling_loop fuel f g M N samples n k w
              end
        end
  end.

(** The adaptation of a distribution family on entry:
      if isinstance(g, rv_continuous):
          g = ProposalDistribution().from_scipy(g)
    [from_scipy] receives the family and nothing else. *)
Definition adapt (g : pyobj) : prog pyobj :=
  match g with
  | VRvContinuous d =>
      self <- ProposalDistribution VNone VNone ;;
      self <- from_scipy self d [] ;;
      ret (VInstance self)
  | _ => ret g
  end.

(** [rejection_sampler(f, g, M, N)] *)
Definition rejection_sampler (fuel : nat) (f g M N : pyobj) (w : world)
    : option (result (list float) * world) :=
  if negb (isinstance_FunctionType f) then
    Some (Raise (TypeError "f must be a function"), w)
  else if negb (isinstance_ProposalDistribution g
                || isinstance_rv_continuous g) then
    Some (Raise (TypeError
      "g must be a continuous scipy distribution or a .ProposalDistribution"),
      w)
  else
    match adapt g w with
    | (Raise e, w) => Some (Raise e, w)
    | (Ok g, w) =>
        if negb (isinstance_int_or_float M) then
          Some (Raise (TypeError
            "M must be an integer or float to scale samples from g by"), w)
        else
          match M with
          | VNum M =>
              if py_le M (NInt 0) then
                Some (Raise (ValueError "M must be positive"), w)
              else if negb (isinstance_int N) then
                Some (Raise (TypeError "N must be an integer"), w)
              else
                match N with
                | VNum N =>
                    if py_le N (NInt 0) then
                      Some (Raise (ValueError "N must be positive"), w)
                    else
                      match empty N w with
                      | (Raise e, w) => Some (Raise e, w)
                      | (Ok samples, w) =>
                          sampling_loop fuel f g M N samples 0 0 w
                      end
                | _ => Some (Raise (TypeError "N must be an integer"), w)
                end
          | _ =>
              Some (Raise (TypeError
                "M must be an integer or float to scale samples from g by"),
                w)
          end
    end.

(** ** The two constructions of a proposal from a distribution family

    As the tests build them:
    [ProposalDistribution(D(params).rvs, D(params).pdf)] and
    [ProposalDistribution().from_scipy(D, params)]. *)
Definition direct_constructor (D : rv_continuous) (args : list num)
    : prog nat :=
  fr <- lift (freeze D args) ;;
  let sampler := VCallable MethodType (rvs fr) in
  fr <- lift (freeze D args) ;;
  let density := VCallable MethodType (pdf fr) in
  ProposalDistribution sampler density.

Definition scipy_constructor (D : rv_continuous) (args : list num)
    : prog nat :=
  self <- ProposalDistribution VNone VNone ;;
  from_scipy self D args.

(** ** The draws of a run

    What the loop draws, apart from its bookkeeping: the first [K] passes
    through [trial] from a state of the world, up to the first that
    raises. *)
Fixpoint trials (K : nat) (f g : pyobj) (M : num) (w : world)
    : result (list (val * float * bool)) * world :=
  match K with
  | O => (Ok [], w)
  | S K =>
      match trial f g M w with
      | (Raise e, w) => (Raise e, w)
      | (Ok t, w) =>
          match trials K f g M w with
          | (Raise e, w) => (Raise e, w)
          | (Ok ts, w) => (Ok (t :: ts), w)
          end
      end
  end.

(** The candidates that passed the test, in the order drawn. *)
Fixpoint accepted (ts : list (val * float * bool)) : list val :=
  match ts with
  | [] => []
  | (x, _, true) :: ts => x :: accepted ts
  | (_, _, false) :: ts => accepted ts
  end.

(** The last pass, if there is one, accepted its candidate. *)
Fixpoint ends_accepted (ts : list (val * float * bool)) : bool :=
  match ts with
  | [] => true
  | [(_, _, b)] => b
  | _ :: ts => ends_accepted ts
  end.

(** Writing [vs] into [samples] from index [n] on. *)
Fixpoint store_all (samples : list float) (n : nat) (vs : list float)
    : list float :=
  match vs with
  | [] => samples
  | v :: vs => store_all (<[n := v]> samples) (S n) vs
  end.


(** [g.density(x)] on the proposal that a constructor returns. *)
Definition density_of (make : prog nat) (x : val) : prog val :=
  g <- make ;; call_method g "density" [x].

(** A candidate [x] was returned by [g.sample()] and passed the test
    against the uniform draw made right after it. *)
Definition drawn_and_passed (f g : pyobj) (M : num) (x : val) : Prop :=
  exists w1 w2 u w3 r w4,
    call_attr g "sample" [] w1 = (Ok x, w2) /\
    uniform w2 = (Ok u, w3) /\
    proposal f g M x w3 = (Ok r, w4) /\
    val_le (Float64 u) r = true.

(** Two states of the world with the generator in the same state and the
    same instances; they may differ in what fresh memory holds. *)
Definition same_state (w1 w2 : world) : Prop :=
  rng w1 = rng w2 /\ heap w1 = heap w2.

(** A computation whose result and whose effect on the generator and the
    instances do not depend on what fresh memory holds. *)
Definition framed {A} (c : prog A) : Prop :=
  forall w1 w2, same_state w1 w2 ->
    (c w1).1 = (c w2).1 /\ same_state (c w1).2 (c w2).2.

(** A computation that leaves the instances and fresh memory as they
    are. *)
Definition keeps_instances {A} (c : prog A) : Prop :=
  forall w, heap (c w).2 = heap w /\ uninit (c w).2 = uninit w.

(** [main()]. The body of its target density,
    [lambda x: 2 * norm().pdf(x) * norm().cdf(x)], computes with the
    exponential and the error function of the C library; it is taken as
    the parameter [target], and [norm] as the distribution family it is. *)
Definition main (fuel : nat) (norm : rv_continuous) (target : code)
    (w : world) : option (result (list float) * world) :=
  let f := VCallable FunctionType target in
  match scipy_constructor norm [] w with
  | (Raise e, w) => Some (Raise e, w)
  | (Ok g, w) =>
      let M := VNum (NInt 2) in
      let N := VNum (NInt 1000) in
      rejection_sampler fuel f (VInstance g) M N w
  end.

End Sampler.

Arguments VNone {G}.
Arguments VNum {G} a.
Arguments VStr {G} s.
Arguments VList {G} l.

(** What calling [None] raises. *)
Definition NoneType_error : exn :=
  TypeError "'NoneType' object is not callable".

(** The errors of the argument checks, by the argument they are about. *)
Definition f_error : exn := TypeError "f must be a function".
Definition g_error : exn :=
  TypeError
    "g must be a continuous scipy distribution or a .ProposalDistribution".
Definition M_type_error : exn :=
  TypeError "M must be an integer or float to scale samples from g by".
Definition M_value_error : exn := ValueError "M must be positive".
Definition N_type_error : exn := TypeError "N must be an integer".
Definition N_value_error : exn := ValueError "N must be positive".

(** [isinstance(g, Union[ProposalDistribution, rv_continuous])] *)
Definition isinstance_g {G} (g : @pyobj G) : bool :=
  isinstance_ProposalDistribution g || isinstance_rv_continuous g.

(** ** Concrete generators and distributions

    The inputs on which the properties below are exercised. *)

(** A generator that replays a given sequence of uniform draws; its state
    is the position in the sequence. *)
Definition replay (draws : nat -> float) (s : nat) : float * nat :=
  (draws s, S s).

(** [lambda x: v] and [lambda: v], with [v] a Python [float] *)
Definition constant (v : float) : @code nat :=
  fun _ s => (Ok (Py (NFloat v)), s).

(** A method of a frozen distribution that returns [v] as a
    [numpy.float64]. *)
Definition constant64 (v : float) : @code nat :=
  fun _ s => (Ok (Float64 v), s).

(** A model of [scipy.stats.uniform]: [uniform(loc=0, scale=1)] is the
    uniform distribution on [[loc, loc + scale]]. Its [pdf] and its [rvs]
    return [numpy.float64]. *)
Definition uniform_pdf (loc scale : float) : @code nat :=
  fun args s =>
    match args with
    | [x] =>
        match float_of x with
        | Ok x =>
            (Ok (Float64 (if ((loc <=? x) && (x <=? loc + scale))%float
                          then 1 / scale else 0)%float), s)
        | Raise e => (Raise e, s)
        end
    | _ => (Raise (TypeError "pdf() takes 1 positional argument"), s)
    end.

Definition uniform_rvs_of (draws : nat -> float) (loc scale : float)
    : @code nat :=
  fun _ s => (Ok (Float64 (loc + scale * draws s)%float), S s).

Definition scipy_uniform (draws : nat -> float) : @rv_continuous nat :=
  {| freeze := fun args =>
       match args with
       | [] => Ok {| rvs := uniform_rvs_of draws 0 1; pdf := uniform_pdf 0 1 |}
       | [loc] =>
           result_bind (to_float loc) (fun loc =>
           Ok {| rvs := uniform_rvs_of draws loc 1; pdf := uniform_pdf loc 1 |})
       | [loc; scale] =>
           result_bind (to_float loc) (fun loc =>
           result_bind (to_float scale) (fun scale =>
           Ok {| rvs := uniform_rvs_of draws loc scale;
                 pdf := uniform_pdf loc scale |}))
       | _ => Raise (TypeError "too many positional arguments")
       end |}.

(** A model of a family with a required shape parameter, such as
    [scipy.stats.gamma]: freezing it without the parameter raises. *)
Definition scipy_needs_shape : @rv_continuous nat :=
  {| freeze := fun args =>
       match args with
       | [] => Raise (TypeError "missing 1 required positional argument")
       | _ => Ok {| rvs := constant64 1; pdf := constant64 1 |}
       end |}.

(** [lambda x: x] *)
Definition identity : @code nat :=
  fun args s =>
    match args with
    | [x] => (Ok x, s)
    | _ => (Raise (TypeError "<lambda>() takes 1 positional argument"), s)
    end.

(** A target density that refuses points outside its range:

      def f(x):
          if not x <= c:
              raise ValueError("x out of range")
          return v *)
Definition bounded_density (c v : float) : @code nat :=
  fun args s =>
    match args with
    | [x] =>
        if val_le x (Py (NFloat c)) then (Ok (Py (NFloat v)), s)
        else (Raise (ValueError "x out of range"), s)
    | _ => (Raise (TypeError "f() takes 1 positional argument"), s)
    end.

(** A sequence of draws in which every draw is 0.5. *)
Definition steady (i : nat) : float := 0.5%float.

(** A sequence of draws that starts with the given ones and goes on with
    0.5. *)
Definition starting_with (l : list float) (i : nat) : float :=
  nth i l 0.5%float.

Definition mixed : nat -> float :=
  starting_with [0.5; 0.5; 0.75; 0.875; 0.625; 0.5]%float.

Definition once_low : nat -> float :=
  starting_with [0.5; 0.125; 0.75; 0.875; 0.625; 0.5]%float.

(** A world with no instance yet, the generator at its start, and fresh
    memory that reads as [junk]. *)
Definition fresh_world (junk : float) : @world nat :=
  World 0%nat [] (fun _ => junk).

(** A world that holds [ProposalDistribution(sampler, density)] at
    reference 0. *)
Definition world_with (sampler density : @pyobj nat) (junk : float)
    : @world nat :=
  World 0%nat [ {[ "sample" := sampler; "density" := density ]} ]
    (fun _ => junk).

(** [ProposalDistribution(uniform().rvs, uniform().pdf)] *)
Definition uniform_proposal (draws : nat -> float) (junk : float)
    : @world nat :=
  world_with (VCallable MethodType (uniform_rvs_of draws 0 1))
    (VCallable MethodType (uniform_pdf 0 1)) junk.

(** * Properties *)

Section Properties.

Context {G : Type}.
Variable uniform_rvs : G -> float * G.

Abbreviation rejection_sampler := (rejection_sampler uniform_rvs).
Abbreviation sampling_loop := (sampling_loop uniform_rvs).
Abbreviation trial := (trial uniform_rvs).
Abbreviation drawn_and_passed := (drawn_and_passed uniform_rvs).

(** ** Argument checks *)

Lemma setattr_rng self name v (w : @world G) :
  rng (setattr self name v w).2 = rng w.
Proof. reflexivity. Qed.

Lemma ProposalDistribution_rng sampler density (w : @world G) :
  rng (ProposalDistribution sampler density w).2 = rng w.
Proof. reflexivity. Qed.

Lemma from_scipy_rng self d args (w : @world G) :
  rng (from_scipy self d args w).2 = rng w.
Proof.
  unfold from_scipy, bind, lift.
  destruct (freeze d args); reflexivity.
Qed.

(** Adapting a family draws nothing from the generator and leaves fresh
    memory alone. *)
Lemma adapt_rng g (w : @world G) : rng (adapt g w).2 = rng w.
Proof.
  destruct g; try reflexivity.
  unfold adapt, bind.
  destruct (ProposalDistribution VNone VNone w) as [[self|e] w1] eqn:E1.
  - pose proof (ProposalDistribution_rng VNone VNone w) as H1.
    rewrite E1 in H1. simpl in H1.
    destruct (from_scipy self d [] w1) as [[self'|e] w2] eqn:E2;
      pose proof (from_scipy_rng self d [] w1) as H2;
      rewrite E2 in H2; simpl in *; congruence.
  - discriminate E1.
Qed.



(** ** Attributes of a ProposalDistribution *)

Lemma heap_setattr self name v (w : @world G) :
  heap (setattr self name v w).2 !! self = insert name v <$> heap w !! self.
Proof. simpl. apply list_lookup_alter_eq. Qed.

Lemma heap_ProposalDistribution sampler density (w : @world G) :
  ProposalDistribution sampler density w
  = (Ok (length (heap w)),
     World (rng w)
       (alter (insert "density" density) (length (heap w))
          (alter (insert "sample" sampler) (length (heap w))
             (heap w ++ [∅])))
       (uninit w)).
Proof. reflexivity. Qed.

Lemma dict_ProposalDistribution sampler density (w : @world G) :
  heap (ProposalDistribution sampler density w).2 !! length (heap w)
  = Some (<["density" := density]> (<["sample" := sampler]> ∅)).
Proof.
  rewrite heap_ProposalDistribution. simpl.
  rewrite !list_lookup_alter_eq, lookup_app_r, Nat.sub_diag by lia.
  reflexivity.
Qed.

Lemma lookup_dict (w : @world G) self d name v :
  heap w !! self = Some d -> d !! name = Some v ->
  lookup w self name = InstanceAttr v.
Proof. intros Hd Hv. unfold lookup. rewrite Hd, Hv. reflexivity. Qed.

Lemma lookup_ProposalDistribution sampler density (w : @world G) :
  let w' := (ProposalDistribution sampler density w).2 in
  lookup w' (length (heap w)) "sample" = InstanceAttr sampler /\
  lookup w' (length (heap w)) "density" = InstanceAttr density.
Proof.
  cbv zeta. split.
  - eapply lookup_dict; [apply dict_ProposalDistribution|].
    rewrite lookup_insert_ne by discriminate. apply lookup_insert_eq.
  - eapply lookup_dict; [apply dict_ProposalDistribution|].
    apply lookup_insert_eq.
Qed.

Lemma from_scipy_Ok self D args fr (w : @world G) :
  freeze D args = Ok fr ->
  from_scipy self D args w
  = (Ok self,
     World (rng w)
       (alter (insert "density" (VCallable MethodType (pdf fr))) self
          (alter (insert "sample" (VCallable MethodType (rvs fr))) self
             (heap w)))
       (uninit w)).
Proof.
  intros H. unfold from_scipy, bind, lift. rewrite H. reflexivity.
Qed.

Lemma from_scipy_Raise self D args e (w : @world G) :
  freeze D args = Raise e -> from_scipy self D args w = (Raise e, w).
Proof.
  intros H. unfold from_scipy, bind, lift. rewrite H. reflexivity.
Qed.

Lemma lookup_from_scipy self D args fr d (w : @world G) :
  freeze D args = Ok fr -> heap w !! self = Some d ->
  let w' := (from_scipy self D args w).2 in
  lookup w' self "sample" = InstanceAttr (VCallable MethodType (rvs fr)) /\
  lookup w' self "density" = InstanceAttr (VCallable MethodType (pdf fr)).
Proof.
  intros HD Hd. cbv zeta. rewrite (from_scipy_Ok _ _ _ _ _ HD). simpl.
  assert (Hh : forall s p,
    alter (insert "density" p) self (alter (insert "sample" s) self (heap w))
      !! self
    = Some (<["density" := p]> (<["sample" := s]> d))).
  { intros s p. rewrite !list_lookup_alter_eq, Hd. reflexivity. }
  split.
  - eapply lookup_dict; [apply Hh|].
    rewrite lookup_insert_ne by discriminate. apply lookup_insert_eq.
  - eapply lookup_dict; [apply Hh|]. apply lookup_insert_eq.
Qed.

(** An instance whose [__dict__] lacks the name is the only one on which
    the methods of the class are reached. *)
Lemma lookup_class (w : @world G) self d name :
  heap w !! self = Some d -> d !! name = None ->
  name ∈ methods -> lookup w self name = ClassAttr name.
Proof.
  intros Hd Hn Hm. unfold lookup. rewrite Hd, Hn.
  rewrite bool_decide_eq_true_2 by assumption. reflexivity.
Qed.

(** C9. [ProposalDistribution()] stores [None] in the instance attributes
    [sample] and [density]. Whatever the constructor is given, both names
    are found in the instance's [__dict__], which is searched before the
    class, so a reference to them never reaches the methods of the class;
    and calling either on a default-constructed instance raises
    [TypeError], since [None] is not callable. *)
Theorem default_instance_shadows_methods :
  forall (w : @world G),
    let self := length (heap w) in
    (forall sampler density,
       exists w', ProposalDistribution sampler density w = (Ok self, w') /\
         lookup w' self "sample" = InstanceAttr sampler /\
         lookup w' self "density" = InstanceAttr density) /\
    (exists w', ProposalDistribution VNone VNone w = (Ok self, w') /\
       lookup w' self "sample" = InstanceAttr VNone /\
       lookup w' self "density" = InstanceAttr VNone /\
       forall args,
         call_method self "sample" args w' = (Raise NoneType_error, w') /\
         call_method self "density" args w' = (Raise NoneType_error, w')).
Proof.
  intros w self.
  assert (Hshadow : forall sampler density,
    exists w', ProposalDistribution sampler density w = (Ok self, w') /\
      lookup w' self "sample" = InstanceAttr sampler /\
      lookup w' self "density" = InstanceAttr density).
  { intros sampler density.
    exists (ProposalDistribution sampler density w).2. split.
    - rewrite heap_ProposalDistribution. reflexivity.
    - apply lookup_ProposalDistribution. }
  split; [exact Hshadow|].
  destruct (Hshadow VNone VNone) as (w' & Hnew & Hs & Hd).
  exists w'. repeat split; try assumption.
  - unfold call_method. rewrite Hs. reflexivity.
  - unfold call_method. rewrite Hd. reflexivity.
Qed.

(** ** Constructing a proposal from a distribution family *)

Lemma run_code_rng (body : @code G) args (w : @world G) :
  run_code body args w
  = ((body args (rng w)).1,
     World (body args (rng w)).2 (heap w) (uninit w)).
Proof. unfold run_code. destruct (body args (rng w)). reflexivity. Qed.

Lemma density_of_direct D args fr x (w : @world G) :
  freeze D args = Ok fr ->
  (density_of (direct_constructor D args) x w).1 = (pdf fr [x] (rng w)).1 /\
  rng (density_of (direct_constructor D args) x w).2
  = (pdf fr [x] (rng w)).2.
Proof.
  intros HD. unfold density_of, direct_constructor, bind, lift.
  rewrite HD, heap_ProposalDistribution.
  unfold call_method.
  match goal with |- context [lookup ?w' _ "density"] =>
    assert (Hl : lookup w' (length (heap w)) "density"
                 = InstanceAttr (VCallable MethodType (pdf fr)))
  end.
  { exact (proj2 (lookup_ProposalDistribution _ _ w)). }
  rewrite Hl. simpl call. rewrite run_code_rng. simpl. auto.
Qed.

Lemma density_of_scipy D args fr x (w : @world G) :
  freeze D args = Ok fr ->
  (density_of (scipy_constructor D args) x w).1 = (pdf fr [x] (rng w)).1 /\
  rng (density_of (scipy_constructor D args) x w).2
  = (pdf fr [x] (rng w)).2.
Proof.
  intros HD. unfold density_of, scipy_constructor, bind.
  rewrite heap_ProposalDistribution, (from_scipy_Ok _ _ _ _ _ HD).
  unfold call_method.
  match goal with |- context [lookup ?w' ?self "density"] =>
    assert (Hl : lookup w' self "density"
                 = InstanceAttr (VCallable MethodType (pdf fr)))
  end.
  { eapply lookup_dict; [|apply lookup_insert_eq]. simpl.
    rewrite !list_lookup_alter_eq, lookup_app_r, Nat.sub_diag by lia.
    reflexivity. }
  rewrite Hl. simpl call. rewrite run_code_rng. simpl. auto.
Qed.


(** ** A distribution family as the proposal *)

Lemma adapt_family D (w : @world G) :
  adapt (VRvContinuous D) w
  = match scipy_constructor D [] w with
    | (Ok self, w') => (Ok (VInstance self), w')
    | (Raise e, w') => (Raise e, w')
    end.
Proof.
  unfold adapt, scipy_constructor, bind, ret.
  rewrite heap_ProposalDistribution.
  destruct (from_scipy _ D [] _) as [[self|e] w']; reflexivity.
Qed.

(** C10. A distribution family passed as [g] is adapted by
    [ProposalDistribution().from_scipy(g)], with no distribution
    parameter: the call behaves as the call on that proposal, whose
    [sample] and [density] are the [rvs] and [pdf] of the family frozen
    with its defaults. A caller has no way to hand parameters over: a
    distribution frozen with them is refused by the check on [g]. *)
Theorem family_adapted_with_defaults :
  forall fuel body (D : @rv_continuous G) M N (w : @world G),
    let f := VCallable FunctionType body in
    rejection_sampler fuel f (VRvContinuous D) M N w
    = match scipy_constructor D [] w with
      | (Ok self, w') => rejection_sampler fuel f (VInstance self) M N w'
      | (Raise e, w') => Some (Raise e, w')
      end /\
    (forall fr, freeze D [] = Ok fr ->
       exists self w', scipy_constructor D [] w = (Ok self, w') /\
         lookup w' self "sample" = InstanceAttr (VCallable MethodType (rvs fr)) /\
         lookup w' self "density" = InstanceAttr (VCallable MethodType (pdf fr))) /\
    (forall fr,
       rejection_sampler fuel f (VRvFrozen fr) M N w
       = Some (Raise g_error, w)).
Proof.
  intros fuel body D M N w f. split; [|split].
  - unfold rejection_sampler at 1. simpl negb. cbv iota.
    rewrite adapt_family.
    destruct (scipy_constructor D [] w) as [[self|e] w']; reflexivity.
  - intros fr HD. unfold scipy_constructor, bind.
    rewrite heap_ProposalDistribution.
    pose proof (lookup_from_scipy (length (heap w)) D [] fr _
                  (ProposalDistribution VNone VNone w).2 HD
                  (dict_ProposalDistribution VNone VNone w)) as Hl.
    cbv zeta in Hl. rewrite heap_ProposalDistribution in Hl.
    cbn [snd] in Hl. rewrite (from_scipy_Ok _ _ _ _ _ HD) in *.
    eexists _, _. split; [reflexivity|]. exact Hl.
  - intros fr. reflexivity.
Qed.

(** ** Booleans as numbers *)

(** C8. [True] passes the checks on [M]: it is an instance of [int], and
    [True <= 0] is false; so with [M = True] a bad [N] is what the call
    reports, and with a good [N] the call goes on to sample. [True] passes
    the checks on [N] in the same way: with [N = True] the call goes on to
    allocate the buffer of samples. *)
Theorem booleans_pass_validation :
  forall fuel body (g g' : @pyobj G) (w w' : world),
    isinstance_g g = true ->
    adapt g w = (Ok g', w') ->
    let f := VCallable FunctionType body in
    let True_ := @VNum G (NBool true) in
    (isinstance_int_or_float True_ = true /\
     py_le (NBool true) (NInt 0) = false /\
     (forall N, isinstance_int N = false ->
        rejection_sampler fuel f g True_ N w = Some (Raise N_type_error, w')) /\
     (forall n, py_le (NInt n) (NInt 0) = false ->
        rejection_sampler fuel f g True_ (VNum (NInt n)) w
        = sampling_loop fuel f g' (NBool true) (NInt n)
            (map (uninit w') (seq 0 (Z.to_nat n))) 0 0 w')) /\
    (isinstance_int True_ = true /\
     forall m, py_le m (NInt 0) = false ->
       rejection_sampler fuel f g (VNum m) True_ w
       = match empty (NBool true) w' with
         | (Raise e, w'') => Some (Raise e, w'')
         | (Ok samples, w'') =>
             sampling_loop fuel f g' m (NBool true) samples 0 0 w''
         end).
Proof.
  intros fuel body g g' w w' Hg Hadapt f True_.
  unfold isinstance_g in Hg.
  split; [split; [reflexivity|split; [reflexivity|split]]|split].
  - intros N HN. unfold rejection_sampler. simpl negb. cbv iota.
    rewrite Hg. simpl negb. cbv iota. rewrite Hadapt. simpl.
    rewrite HN. reflexivity.
  - intros n Hn. unfold rejection_sampler. simpl negb. cbv iota.
    rewrite Hg. simpl negb. cbv iota. rewrite Hadapt. simpl.
    rewrite Hn. unfold py_le in Hn. simpl in Hn.
    replace (n <? 0) with false by lia. reflexivity.
  - reflexivity.
  - intros m Hm. unfold rejection_sampler. simpl negb. cbv iota.
    rewrite Hg. simpl negb. cbv iota. rewrite Hadapt. simpl.
    rewrite Hm. reflexivity.
Qed.

(** ** Valid arguments *)

(** With a function [f], a [ProposalDistribution] [g], a number [M] that
    is not [<= 0] and a positive integer [N], the call allocates the buffer
    and enters the loop. *)
Lemma rejection_sampler_valid fuel body self (M : num) (N : Z) (w : @world G) :
  py_le M (NInt 0) = false ->
  0 < N ->
  rejection_sampler fuel (VCallable FunctionType body) (VInstance self)
    (VNum M) (VNum (NInt N)) w
  = sampling_loop fuel (VCallable FunctionType body) (VInstance self)
      M (NInt N) (map (uninit w) (seq 0 (Z.to_nat N))) 0 0 w.
Proof.
  intros HM HN.
  unfold rejection_sampler. simpl negb. cbv iota. simpl adapt.
  unfold ret. simpl isinstance_int_or_float. simpl negb. cbv iota.
  rewrite HM. simpl isinstance_int. simpl negb. cbv iota.
  replace (py_le (NInt N) (NInt 0)) with false by (unfold py_le; simpl; lia).
  unfold empty. replace (N <? 0) with false by lia. reflexivity.
Qed.

(** ** The samples returned *)

Abbreviation trials := (trials uniform_rvs).

Lemma store_all_length vs : forall samples n,
  length (store_all samples n vs) = length samples.
Proof.
  induction vs as [|v vs IH]; intros samples n; simpl; [reflexivity|].
  rewrite IH. apply length_insert.
Qed.

Lemma store_all_spec vs : forall samples n,
  (n + length vs <= length samples)%nat ->
  store_all samples n vs
  = take n samples ++ vs ++ drop (n + length vs) samples.
Proof.
  induction vs as [|v vs IH]; intros samples n Hlen; simpl in *.
  - rewrite Nat.add_0_r, take_drop. reflexivity.
  - rewrite IH by (rewrite length_insert; lia).
    rewrite (take_S_r _ n v) by (apply list_lookup_insert_eq; lia).
    rewrite take_insert_ge by lia.
    rewrite drop_insert_lt by lia.
    rewrite <- app_assoc. simpl.
    replace (S (n + length vs)) with (n + S (length vs))%nat by lia.
    reflexivity.
Qed.

Lemma store_all_full vs samples :
  length vs = length samples -> store_all samples 0 vs = vs.
Proof.
  intros Hlen. rewrite store_all_spec by (simpl; lia). simpl.
  rewrite drop_ge by lia. apply app_nil_r.
Qed.

Lemma ends_accepted_cons t ts :
  ends_accepted (t :: ts) = true ->
  ends_accepted ts = true /\ (ts = [] -> t.2 = true).
Proof.
  destruct t as [[x u] b]. destruct ts as [|t' ts]; simpl.
  - intros ->. auto.
  - intros H. split; [exact H|discriminate].
Qed.

Lemma ends_accepted_nonempty ts :
  ts <> [] -> ends_accepted ts = true -> accepted ts <> [].
Proof.
  induction ts as [|t ts IH]; [congruence|]. intros _ H.
  destruct (ends_accepted_cons _ _ H) as [Hts Ht].
  destruct t as [[x u] b]. destruct b; simpl; [discriminate|].
  destruct ts as [|t' ts]; [specialize (Ht eq_refl); discriminate|].
  apply IH; [discriminate|assumption].
Qed.

(** The loop, run on the draws of [K] passes the last of which fills the
    buffer, stores the accepted candidates in order and stops. *)
Lemma sampling_loop_trials f g M N MMN : forall K fuel samples n k w ts w' vs,
  budget M (NInt N) = Ok MMN ->
  (forall j, k <= j < k + Z.of_nat K -> py_gt (NInt j) MMN = false) ->
  trials K f g M w = (Ok ts, w') ->
  ends_accepted ts = true ->
  Forall2 (fun x v => float_of x = Ok v) (accepted ts) vs ->
  0 <= n -> n + Z.of_nat (length vs) = N -> N <= Z.of_nat (length samples) ->
  (K < fuel)%nat ->
  sampling_loop fuel f g M (NInt N) samples n k w
  = Some (Ok (store_all samples (Z.to_nat n) vs), w').
Proof.
  induction K as [|K IH];
    intros fuel samples n k w ts w' vs HB Hk Ht Hend Hvs Hn HN Hlen Hfuel.
  - simpl in Ht. injection Ht as <- <-. simpl in Hvs.
    apply Forall2_nil_inv_l in Hvs. subst vs. simpl in *.
    destruct fuel as [|fuel]; [lia|]. simpl.
    unfold py_lt. simpl. replace (n <? N) with false by lia. reflexivity.
  - simpl in Ht.
    destruct (trial f g M w) as [[[[x u] b]|e] w1] eqn:Ht1; [|discriminate].
    destruct (trials K f g M w1) as [[ts'|e] w2] eqn:Ht2; [|discriminate].
    injection Ht as <- <-.
    destruct (ends_accepted_cons _ _ Hend) as [Hend' Hlast].
    assert (Hne : vs <> []).
    { intros ->. apply Forall2_length in Hvs.
      apply (ends_accepted_nonempty ((x, u, b) :: ts'));
        [discriminate|exact Hend|].
      destruct (accepted _); [reflexivity|discriminate]. }
    destruct fuel as [|fuel]; [lia|]. simpl.
    unfold py_lt at 1. simpl scalar_of. cbv iota.
    assert (Hlt : n < N).
    { destruct vs as [|v vs']; [contradiction|]. simpl length in HN. lia. }
    replace (n <? N) with true by lia.
    simpl negb. cbv iota. rewrite HB.
    rewrite (Hk k) by lia. rewrite Ht1.
    destruct b.
    + simpl in Hvs. apply Forall2_cons_inv_l in Hvs.
      destruct Hvs as (v & vs' & Hv & Hvs' & ->).
      unfold setitem. rewrite Hv. simpl result_bind. simpl length in HN.
      replace ((0 <=? n) && (n <? Z.of_nat (length samples))) with true
        by (symmetry; apply andb_true_intro; split; lia).
      rewrite (IH fuel _ (n + 1) (k + 1) w1 ts' w2 vs'); try assumption;
        try lia.
      * simpl. replace (Z.to_nat (n + 1)) with (S (Z.to_nat n)) by lia.
        reflexivity.
      * intros j Hj. apply Hk. lia.
      * rewrite length_insert. lia.
    + simpl in Hvs.
      rewrite (IH fuel samples n (k + 1) w1 ts' w2 vs); try assumption;
        try lia.
      * reflexivity.
      * intros j Hj. apply Hk. lia.
Qed.

Lemma trial_eq f g M (w : @world G) :
  trial f g M w
  = bind (call_attr g "sample" []) (fun x =>
    bind (uniform uniform_rvs) (fun u =>
    bind (proposal f g M x) (fun r =>
    ret (x, u, val_le (Float64 u) r)))) w.
Proof. reflexivity. Qed.

Lemma trial_inv f g M w x u b w' :
  trial f g M w = (Ok (x, u, b), w') ->
  exists w2 w3 r,
    call_attr g "sample" [] w = (Ok x, w2) /\
    uniform uniform_rvs w2 = (Ok u, w3) /\
    proposal f g M x w3 = (Ok r, w') /\
    b = val_le (Float64 u) r.
Proof.
  rewrite trial_eq. unfold bind, ret.
  destruct (call_attr g "sample" [] w) as [[x'|e] w2]; [|discriminate].
  destruct (uniform uniform_rvs w2) as [[u'|e] w3] eqn:Hu; [|discriminate].
  destruct (proposal f g M x' w3) as [[r|e] w4] eqn:Hr; [|discriminate].
  intros H. injection H as <- <- <- <-.
  exists w2, w3, r. auto.
Qed.

Lemma trials_accepted f g M : forall K w ts w',
  trials K f g M w = (Ok ts, w') ->
  Forall (drawn_and_passed f g M) (accepted ts).
Proof.
  induction K as [|K IH]; intros w ts w' Ht; simpl in Ht.
  - injection Ht as <- <-. constructor.
  - destruct (trial f g M w) as [[[[x u] b]|e] w1] eqn:Ht1; [|discriminate].
    destruct (trials K f g M w1) as [[ts'|e] w2] eqn:Ht2; [|discriminate].
    injection Ht as <- <-. specialize (IH _ _ _ Ht2).
    destruct b; simpl; [|exact IH].
    constructor; [|exact IH].
    destruct (trial_inv _ _ _ _ _ _ _ _ Ht1) as (w2' & w3 & r & H1 & H2 & H3 & H4).
    exists w, w2', u, w3, r, w1. auto.
Qed.

(** The test is [u <= r]: a draw equal to the ratio is accepted, be the
    ratio a [float] or a [numpy.float64]. *)
Lemma equal_is_accepted (u : float) (r : val) (y : float) :
  num_of r = NFloat y ->
  (u =? y)%float = true -> val_le (Float64 u) r = true.
Proof.
  unfold val_le, py_le. intros ->. simpl.
  rewrite FloatAxioms.eqb_spec, FloatAxioms.leb_spec. unfold SFeqb, SFleb.
  destruct (SFcompare _ _) as [[]|]; congruence.
Qed.

Lemma Forall2_with_Forall {A B} (P : A -> Prop) (R : A -> B -> Prop) l k :
  Forall P l -> Forall2 R l k -> Forall2 (fun a b => P a /\ R a b) l k.
Proof.
  intros HP HR. induction HR as [|a b l k Hab HR IH]; [constructor|].
  inversion HP; subst. constructor; auto.
Qed.

(** A run whose first [K] passes contain [N] acceptances, the last pass
    being one, within the budget: the call returns the accepted
    candidates. *)
Lemma rejection_sampler_completes K fuel body self (M : num) (N : Z) MMN
    (w w' : @world G) ts vs :
  py_le M (NInt 0) = false ->
  0 < N ->
  budget M (NInt N) = Ok MMN ->
  (forall j, 0 <= j < Z.of_nat K -> py_gt (NInt j) MMN = false) ->
  trials K (VCallable FunctionType body) (VInstance self) M w = (Ok ts, w') ->
  ends_accepted ts = true ->
  Forall2 (fun x v => float_of x = Ok v) (accepted ts) vs ->
  Z.of_nat (length vs) = N ->
  (K < fuel)%nat ->
  rejection_sampler fuel (VCallable FunctionType body) (VInstance self)
    (VNum M) (VNum (NInt N)) w
  = Some (Ok vs, w').
Proof.
  intros HM HN HB Hk Ht Hend Hvs Hlen Hfuel.
  rewrite rejection_sampler_valid by assumption.
  rewrite (sampling_loop_trials _ _ M N MMN K fuel _ 0 0 w ts w' vs);
    try assumption; try lia.
  - rewrite store_all_full; [reflexivity|].
    rewrite length_map, length_seq. lia.
  - rewrite length_map, length_seq. lia.
Qed.


(** ** Determinism of a run that fills the buffer *)

Lemma same_state_refl (w : @world G) : same_state w w.
Proof. split; reflexivity. Qed.

Lemma framed_ret {A} (a : A) : framed (@ret G A a).
Proof. intros w1 w2 H. split; [reflexivity|exact H]. Qed.

Lemma framed_lift {A} (r : result A) : framed (@lift G A r).
Proof. intros w1 w2 H. split; [reflexivity|exact H]. Qed.

Lemma framed_raise {A} e : framed (@raise G A e).
Proof. intros w1 w2 H. split; [reflexivity|exact H]. Qed.

Lemma framed_bind {A B} (c : @prog G A) (k : A -> @prog G B) :
  framed c -> (forall a, framed (k a)) -> framed (bind c k).
Proof.
  intros Hc Hk w1 w2 H. unfold bind.
  destruct (Hc w1 w2 H) as [Hr Hs].
  destruct (c w1) as [[a1|e1] w1'], (c w2) as [[a2|e2] w2'];
    simpl in Hr, Hs; try discriminate.
  - injection Hr as ->. apply Hk. exact Hs.
  - injection Hr as ->. split; [reflexivity|exact Hs].
Qed.

Lemma framed_run_code (body : @code G) args : framed (run_code body args).
Proof.
  intros w1 w2 [Hr Hh]. rewrite !run_code_rng. simpl.
  rewrite Hr. split; [reflexivity|]. split; simpl; congruence.
Qed.

Lemma framed_uniform : framed (uniform uniform_rvs).
Proof.
  intros w1 w2 [Hr Hh]. unfold uniform. rewrite Hr.
  destruct (uniform_rvs (rng w2)) as [u s]. simpl.
  split; [reflexivity|]. split; simpl; congruence.
Qed.

Lemma framed_call (v : @pyobj G) args : framed (call v args).
Proof.
  destruct v; simpl; try apply framed_raise. apply framed_run_code.
Qed.

Lemma framed_call_attr (g : @pyobj G) name args :
  framed (call_attr g name args).
Proof.
  destruct g; simpl; try apply framed_raise.
  intros w1 w2 H. unfold call_method, lookup.
  destruct H as [Hr Hh]. rewrite Hh.
  destruct (heap w2 !! l) as [d|].
  - destruct (d !! name) as [v|].
    + apply framed_call. split; assumption.
    + destruct (bool_decide _); simpl; (split; [reflexivity|split; assumption]).
  - simpl. split; [reflexivity|split; assumption].
Qed.

Lemma framed_proposal (f g : @pyobj G) M x : framed (proposal f g M x).
Proof.
  unfold proposal.
  apply framed_bind; [apply framed_call|]. intros fx.
  apply framed_bind; [apply framed_call_attr|]. intros d.
  apply framed_bind; [apply framed_lift|]. intros Md.
  apply framed_lift.
Qed.

Lemma framed_trial (f g : @pyobj G) M : framed (trial f g M).
Proof.
  intros w1 w2 H. rewrite !trial_eq. revert w1 w2 H.
  apply framed_bind; [apply framed_call_attr|]. intros x.
  apply framed_bind; [apply framed_uniform|]. intros u.
  apply framed_bind; [apply framed_proposal|]. intros r.
  apply framed_ret.
Qed.

Lemma framed_trials (f g : @pyobj G) M K : framed (trials K f g M).
Proof.
  induction K as [|K IH]; intros w1 w2 H; simpl.
  - split; [reflexivity|exact H].
  - destruct (framed_trial f g M w1 w2 H) as [Hr Hs].
    destruct (trial f g M w1) as [[t1|e1] w1'],
             (trial f g M w2) as [[t2|e2] w2'];
      simpl in Hr, Hs; try discriminate.
    + injection Hr as ->.
      destruct (IH w1' w2' Hs) as [Hr' Hs'].
      destruct (trials K f g M w1') as [[ts1|e1] w1''],
               (trials K f g M w2') as [[ts2|e2] w2''];
        simpl in Hr', Hs'; try discriminate.
      * injection Hr' as ->. split; [reflexivity|exact Hs'].
      * injection Hr' as ->. split; [reflexivity|exact Hs'].
    + injection Hr as ->. split; [reflexivity|exact Hs].
Qed.

(** X10. Two calls with the same arguments, from the same state of the
    generator and of the instances, return the same array when the run
    fills the buffer within the budget: what fresh memory held does not
    show. *)
Theorem completed_run_is_deterministic :
  forall K fuel body self (M : num) (N : Z) MMN (w1 w2 w1' : @world G) ts vs,
    let f := VCallable FunctionType body in
    let g := VInstance self in
    py_le M (NInt 0) = false ->
    0 < N ->
    budget M (NInt N) = Ok MMN ->
    (forall j, 0 <= j < Z.of_nat K -> py_gt (NInt j) MMN = false) ->
    trials K f g M w1 = (Ok ts, w1') ->
    ends_accepted ts = true ->
    Forall2 (fun x v => float_of x = Ok v) (accepted ts) vs ->
    Z.of_nat (length vs) = N ->
    (K < fuel)%nat ->
    same_state w1 w2 ->
    fst <$> rejection_sampler fuel f g (VNum M) (VNum (NInt N)) w1
    = Some (Ok vs) /\
    fst <$> rejection_sampler fuel f g (VNum M) (VNum (NInt N)) w2
    = Some (Ok vs).
Proof.
  intros K fuel body self M N MMN w1 w2 w1' ts vs f g HM HN HB Hk Ht Hend
    Hvs Hlen Hfuel Hsame. subst f g.
  destruct (framed_trials (VCallable FunctionType body) (VInstance self)
              M K w1 w2 Hsame) as [Hr _].
  rewrite Ht in Hr. simpl in Hr.
  destruct (trials K (VCallable FunctionType body) (VInstance self) M w2)
    as [r2 w2'] eqn:Ht2.
  simpl in Hr. subst r2.
  rewrite (rejection_sampler_completes K fuel body self M N MMN w1 w1' ts vs)
    by assumption.
  rewrite (rejection_sampler_completes K fuel body self M N MMN w2 w2' ts vs)
    by assumption.
  split; reflexivity.
Qed.

(** ** Division by a zero density *)

Lemma py_truediv_zero a b v :
  py_is_zero b = true -> to_float a = Ok v ->
  py_truediv a b = Raise ZeroDivisionError.
Proof.
  unfold py_is_zero, py_truediv, to_float.
  destruct (scalar_of a) as [x|x], (scalar_of b) as [y|y]; intros Hz Hv.
  - apply Z.eqb_eq in Hz. subst y. reflexivity.
  - rewrite Hv. simpl. rewrite Hz. reflexivity.
  - apply Z.eqb_eq in Hz. subst y. reflexivity.
  - simpl. rewrite Hz. reflexivity.
Qed.

(** C6. Nothing guards the division in [proposal]. When the first
    candidate [x] has [g.density(x) == 0], [M * g.density(x)] is zero with
    it, and [f(x)] and [g.density(x)] are Python numbers, so that the
    division is Python's, [f(x) / (M * g.density(x))] raises
    [ZeroDivisionError], and the exception leaves [rejection_sampler] as it
    is, uncaught. The division is numpy's, which does not raise, when
    either operand is a [numpy.float64]. *)
Theorem zero_density_raises :
  forall fuel body self (M : num) (N : Z) MMN (w w1 w2 w3 w4 : @world G)
         x u (fx : num) v (d Md : num),
    let f := VCallable FunctionType body in
    let g := VInstance self in
    py_le M (NInt 0) = false ->
    0 < N ->
    budget M (NInt N) = Ok MMN ->
    py_gt (NInt 0) MMN = false ->
    call_attr g "sample" [] w = (Ok x, w1) ->
    uniform uniform_rvs w1 = (Ok u, w2) ->
    call f [x] w2 = (Ok (Py fx), w3) ->
    to_float fx = Ok v ->
    call_attr g "density" [x] w3 = (Ok (Py d), w4) ->
    py_is_zero d = true ->
    py_mul M d = Ok Md ->
    py_is_zero Md = true ->
    (0 < fuel)%nat ->
    rejection_sampler fuel f g (VNum M) (VNum (NInt N)) w
    = Some (Raise ZeroDivisionError, w4).
Proof.
  intros fuel body self M N MMN w w1 w2 w3 w4 x u fx v d Md f g
    HM HN HB Hk Hx Hu Hfx Hv Hd Hd0 HMd HMd0 Hfuel.
  subst f g. rewrite rejection_sampler_valid by assumption.
  destruct fuel as [|fuel]; [lia|]. simpl.
  replace (py_lt (NInt 0) (NInt N)) with true by (unfold py_lt; simpl; lia).
  simpl negb. cbv iota. rewrite HB, Hk.
  rewrite trial_eq. unfold bind at 1. rewrite Hx.
  unfold bind at 1. rewrite Hu.
  unfold bind at 1. unfold proposal. unfold bind at 1. rewrite Hfx.
  unfold bind at 1. rewrite Hd.
  unfold bind, lift. unfold val_mul. rewrite HMd. simpl result_bind.
  unfold val_truediv.
  rewrite (py_truediv_zero fx Md v HMd0 Hv). reflexivity.
Qed.

(** ** The iteration budget *)

Lemma sampling_loop_reject fuel f g M N MMN samples n k (w w' : @world G) x u :
  py_lt (NInt n) N = true ->
  budget M N = Ok MMN ->
  py_gt (NInt k) MMN = false ->
  trial f g M w = (Ok (x, u, false), w') ->
  sampling_loop (S fuel) f g M N samples n k w
  = sampling_loop fuel f g M N samples n (k + 1) w'.
Proof.
  intros Hn HB Hk Ht. simpl. rewrite Hn, HB, Hk, Ht. reflexivity.
Qed.

Lemma sampling_loop_break fuel f g M N MMN samples n k (w : @world G) :
  py_lt (NInt n) N = true ->
  budget M N = Ok MMN ->
  py_gt (NInt k) MMN = true ->
  sampling_loop (S fuel) f g M N samples n k w = Some (Ok samples, w).
Proof.
  intros Hn HB Hk. simpl. rewrite Hn, HB, Hk. reflexivity.
Qed.

Lemma budget_ceiling_exceeded MMN B k :
  budget_ceiling MMN = Some B -> B < k -> py_gt (NInt k) MMN = true.
Proof.
  unfold budget_ceiling, py_gt, py_lt. simpl scalar_of.
  destruct (scalar_of MMN) as [z|y].
  - intros [= <-] Hk. lia.
  - unfold cmp_int_float.
    destruct (Prim2SF y) as [s|s| |s m e]; try discriminate.
    + intros [= <-] Hk.
      assert ((k ?= 0) = Gt) as -> by (apply Z.compare_gt_iff; lia).
      reflexivity.
    + destruct s; [|discriminate]. reflexivity.
    + intros [= <-] Hk.
      assert (Hpow : forall a, 0 <= a -> 1 <= 2 ^ a).
      { intros a Ha. change 1 with (2 ^ 0).
        apply Z.pow_le_mono_r; lia. }
      destruct (Z.leb_spec 0 e) as [He|He].
      * specialize (Hpow e He). destruct s.
        -- assert ((k ?= Z.neg m * 2 ^ e) = Gt) as ->
             by (apply Z.compare_gt_iff; nia).
           reflexivity.
        -- assert ((k ?= Z.pos m * 2 ^ e) = Gt) as ->
             by (apply Z.compare_gt_iff; lia).
           reflexivity.
      * specialize (Hpow (- e) ltac:(lia)). destruct s.
        -- assert ((k * 2 ^ (- e) ?= Z.neg m) = Gt) as ->
             by (apply Z.compare_gt_iff; nia).
           reflexivity.
        -- assert ((k * 2 ^ (- e) ?= Z.pos m) = Gt) as ->; [|reflexivity].
           apply Z.compare_gt_iff.
           pose proof (Z.mul_succ_div_gt (Z.pos m) (2 ^ (- e)) ltac:(lia)).
           nia.
Qed.

(** With a budget that has a ceiling [B], the loop is left after at most
    [B + 1 - k] further passes: it returns or raises, given that much
    fuel. *)
Lemma sampling_loop_returns f g M N MMN B :
  budget M N = Ok MMN ->
  budget_ceiling MMN = Some B ->
  forall fuel samples n k (w : @world G),
    (Z.to_nat (B + 1 - k) < fuel)%nat ->
    exists r, sampling_loop fuel f g M N samples n k w = Some r.
Proof.
  intros HB HC. induction fuel as [|fuel IH]; intros samples n k w Hfuel.
  - lia.
  - simpl. destruct (py_lt (NInt n) N); simpl; [|eauto].
    rewrite HB. destruct (py_gt (NInt k) MMN) eqn:Hk; [eauto|].
    assert (k <= B).
    { destruct (Z.le_gt_cases k B) as [|Hlt]; [assumption|].
      rewrite (budget_ceiling_exceeded _ _ _ HC) in Hk by lia.
      discriminate. }
    destruct (trial f g M w) as [[[[x u] [|]]|e] w']; [| |eauto].
    + destruct (setitem samples n x); [|eauto]. apply IH. lia.
    + apply IH. lia.
Qed.

Lemma budget_Raise_returns f g M N e :
  budget M N = Raise e ->
  forall fuel samples n k (w : @world G),
    (0 < fuel)%nat ->
    exists r, sampling_loop fuel f g M N samples n k w = Some r.
Proof.
  intros HB [|fuel] samples n k w Hfuel; [lia|].
  simpl. destruct (py_lt (NInt n) N); simpl; [|eauto].
  rewrite HB. eauto.
Qed.

(** Whatever the arguments are, when
    [M * M * N], if the call gets to evaluate it, raises or is a number
    with a ceiling [B], the call returns or raises within [B + 2]
    evaluations of the loop condition. *)
Lemma returns_within_ceiling :
  forall fuel (f g M N : @pyobj G) (w : world) B,
    (forall m n MMN, M = VNum m -> N = VNum n -> budget m n = Ok MMN ->
       exists B', budget_ceiling MMN = Some B' /\ B' <= B) ->
    (Z.to_nat (B + 1) < fuel)%nat ->
    exists r, rejection_sampler fuel f g M N w = Some r.
Proof.
  intros fuel f g M N w B HB Hfuel. unfold rejection_sampler.
  destruct (negb (isinstance_FunctionType f)); [eauto|].
  destruct (negb _); [eauto|].
  destruct (adapt g w) as [[g'|e] w']; [|eauto].
  destruct (negb (isinstance_int_or_float M)); [eauto|].
  destruct M as [|m| | | | | |]; eauto.
  destruct (py_le m (NInt 0)); [eauto|].
  destruct (negb (isinstance_int N)); [eauto|].
  destruct N as [|n| | | | | |]; eauto.
  destruct (py_le n (NInt 0)); [eauto|].
  destruct (empty n w') as [[samples|e] w'']; [|eauto].
  destruct (budget m n) as [MMN|e] eqn:Hb.
  - destruct (HB m n MMN eq_refl eq_refl Hb) as (B' & HC & HB').
    apply (sampling_loop_returns _ _ _ _ _ _ Hb HC). lia.
  - apply (budget_Raise_returns _ _ _ _ _ Hb). lia.
Qed.

(** X11. An integer [M] makes the budget [M * M * N] an integer, which
    some count exceeds: whatever [f], [g] and the draws are, the call
    returns or raises within [M * M * N + 2] evaluations of the loop
    condition. *)
Corollary integer_M_terminates :
  forall fuel (f g : @pyobj G) (M N : Z) (w : world),
    (Z.to_nat (M * M * N + 1) < fuel)%nat ->
    exists r,
      rejection_sampler fuel f g (VNum (NInt M)) (VNum (NInt N)) w = Some r.
Proof.
  intros fuel f g M N w Hfuel.
  apply (returns_within_ceiling fuel f g _ _ w (M * M * N));
    [|exact Hfuel].
  intros m n MMN [= <-] [= <-] [= <-]. exists (M * M * N).
  split; [reflexivity|lia].
Qed.


(** No count of iterations exceeds an infinite budget. *)
Lemma never_exceeds_infinity k : py_gt (NInt k) (NFloat infinity) = false.
Proof. reflexivity. Qed.

(** When no count of iterations exceeds the budget, a run in which no
    candidate is accepted does not leave the loop: whatever the fuel, it
    runs out. [Inv] describes the states of the world the run goes
    through. *)
Lemma unbounded_budget_never_stops f g M N MMN samples n
    (Inv : @world G -> Prop) :
  py_lt (NInt n) N = true ->
  budget M N = Ok MMN ->
  (forall k, py_gt (NInt k) MMN = false) ->
  (forall w, Inv w ->
     exists x u w', trial f g M w = (Ok (x, u, false), w') /\ Inv w') ->
  forall fuel k w, Inv w ->
    sampling_loop fuel f g M N samples n k w = None.
Proof.
  intros Hn HB Hk Hstep. induction fuel as [|fuel IH]; intros k w Hw.
  - reflexivity.
  - destruct (Hstep w Hw) as (x & u & w' & Ht & Hw').
    rewrite (sampling_loop_reject _ _ _ _ _ _ _ _ _ _ _ _ _ Hn HB (Hk k) Ht).
    apply IH. exact Hw'.
Qed.

(** * Further properties of the code *)

(** ** The array returned *)

Lemma setitem_length samples n x samples' :
  setitem samples n x = Ok samples' -> length samples' = length samples.
Proof.
  unfold setitem. destruct (float_of x) as [v|e]; simpl; [|discriminate].
  destruct (_ && _); [|discriminate].
  intros [= <-]. apply length_insert.
Qed.

Lemma sampling_loop_length f g M N : forall fuel samples n k (w w' : @world G)
    samples',
  sampling_loop fuel f g M N samples n k w = Some (Ok samples', w') ->
  length samples' = length samples.
Proof.
  induction fuel as [|fuel IH]; intros samples n k w w' samples' H;
    [discriminate|].
  simpl in H. destruct (py_lt (NInt n) N); simpl in H;
    [|injection H as <- _; reflexivity].
  destruct (budget M N) as [MMN|e]; [|discriminate].
  destruct (py_gt (NInt k) MMN); [injection H as <- _; reflexivity|].
  destruct (trial f g M w) as [[[[x u] [|]]|e] w1]; [| |discriminate].
  - destruct (setitem samples n x) as [s1|e] eqn:Hs; [|discriminate].
    rewrite (IH _ _ _ _ _ _ H). eapply setitem_length. exact Hs.
  - exact (IH _ _ _ _ _ _ H).
Qed.

(** X1. Whenever [rejection_sampler] returns an array, [N] is a positive
    integer and the array has [N] entries: also when the loop was left on
    the iteration budget with fewer than [N] candidates accepted. *)
Theorem returned_array_has_length_N :
  forall fuel (f g M N : @pyobj G) (w w' : world) samples,
    rejection_sampler fuel f g M N w = Some (Ok samples, w') ->
    exists n, N = VNum (NInt n) /\ 0 < n /\ Z.of_nat (length samples) = n.
Proof.
  intros fuel f g M N w w' samples. unfold rejection_sampler.
  destruct (negb (isinstance_FunctionType f)); [discriminate|].
  destruct (negb _); [discriminate|].
  destruct (adapt g w) as [[g'|e] w1]; [|discriminate].
  destruct (negb (isinstance_int_or_float M)); [discriminate|].
  destruct M as [|m| | | | | |]; try discriminate.
  destruct (py_le m (NInt 0)); [discriminate|].
  destruct (negb (isinstance_int N)); [discriminate|].
  destruct N as [|n| | | | | |]; try discriminate.
  destruct (py_le n (NInt 0)) eqn:Hn; [discriminate|].
  destruct n as [b|n|x]; simpl; try discriminate.
  destruct (n <? 0) eqn:Hneg; [discriminate|].
  intros H. apply sampling_loop_length in H.
  rewrite length_map, length_seq in H.
  exists n. unfold py_le in Hn. simpl in Hn. repeat split; lia.
Qed.

(** ** What the call leaves alone *)

Lemma keeps_ret {A} (a : A) : keeps_instances (@ret G A a).
Proof. intros w. split; reflexivity. Qed.

Lemma keeps_lift {A} (r : result A) : keeps_instances (@lift G A r).
Proof. intros w. split; reflexivity. Qed.

Lemma keeps_raise {A} e : keeps_instances (@raise G A e).
Proof. intros w. split; reflexivity. Qed.

Lemma keeps_bind {A B} (c : @prog G A) (k : A -> @prog G B) :
  keeps_instances c -> (forall a, keeps_instances (k a)) ->
  keeps_instances (bind c k).
Proof.
  intros Hc Hk w. unfold bind. destruct (Hc w) as [Hh Hu].
  destruct (c w) as [[a|e] w1]; simpl in Hh, Hu.
  - destruct (Hk a w1) as [Hh' Hu']. split; congruence.
  - split; assumption.
Qed.

Lemma keeps_run_code (body : @code G) args :
  keeps_instances (run_code body args).
Proof. intros w. rewrite run_code_rng. split; reflexivity. Qed.

Lemma keeps_uniform : keeps_instances (uniform uniform_rvs).
Proof.
  intros w. unfold uniform. destruct (uniform_rvs (rng w)).
  split; reflexivity.
Qed.

Lemma keeps_call (v : @pyobj G) args : keeps_instances (call v args).
Proof. destruct v; simpl; try apply keeps_raise. apply keeps_run_code. Qed.

Lemma keeps_call_attr (g : @pyobj G) name args :
  keeps_instances (call_attr g name args).
Proof.
  destruct g; simpl; try apply keeps_raise.
  intros w. unfold call_method. destruct (lookup w l name).
  - apply keeps_call.
  - split; reflexivity.
  - split; reflexivity.
Qed.

Lemma keeps_proposal (f g : @pyobj G) M x :
  keeps_instances (proposal f g M x).
Proof.
  unfold proposal.
  apply keeps_bind; [apply keeps_call|]. intros fx.
  apply keeps_bind; [apply keeps_call_attr|]. intros d.
  apply keeps_bind; [apply keeps_lift|]. intros Md.
  apply keeps_lift.
Qed.

Lemma keeps_trial (f g : @pyobj G) M : keeps_instances (trial f g M).
Proof.
  intros w. rewrite trial_eq. revert w.
  apply keeps_bind; [apply keeps_call_attr|]. intros x.
  apply keeps_bind; [apply keeps_uniform|]. intros u.
  apply keeps_bind; [apply keeps_proposal|]. intros r.
  apply keeps_ret.
Qed.

Lemma sampling_loop_keeps f g M N : forall fuel samples n k (w w' : @world G) r,
  sampling_loop fuel f g M N samples n k w = Some (r, w') ->
  heap w' = heap w /\ uninit w' = uninit w.
Proof.
  induction fuel as [|fuel IH]; intros samples n k w w' r H; [discriminate|].
  simpl in H. destruct (py_lt (NInt n) N); simpl in H;
    [|injection H as _ <-; split; reflexivity].
  destruct (budget M N) as [MMN|e];
    [|injection H as _ <-; split; reflexivity].
  destruct (py_gt (NInt k) MMN); [injection H as _ <-; split; reflexivity|].
  destruct (keeps_trial f g M w) as [Hh Hu].
  destruct (trial f g M w) as [[[[x u] [|]]|e] w1]; simpl in Hh, Hu.
  - destruct (setitem samples n x) as [s1|e].
    + destruct (IH _ _ _ _ _ _ H). split; congruence.
    + injection H as _ <-. split; assumption.
  - destruct (IH _ _ _ _ _ _ H). split; congruence.
  - injection H as _ <-. split; assumption.
Qed.

Lemma adapt_heap g (w : @world G) :
  uninit (adapt g w).2 = uninit w /\
  (isinstance_rv_continuous g = false -> heap (adapt g w).2 = heap w) /\
  (isinstance_rv_continuous g = true ->
   exists d, heap (adapt g w).2 = heap w ++ [d]).
Proof.
  destruct g; simpl; try (split; [reflexivity|split; [reflexivity|discriminate]]).
  unfold bind. rewrite heap_ProposalDistribution.
  replace (alter (insert "density" VNone) (length (heap w))
             (alter (insert "sample" VNone) (length (heap w))
                (heap w ++ [∅])))
    with (heap w ++ [<["density" := VNone]> (<["sample" := @VNone G]> ∅)]).
  2:{ rewrite <- (Nat.add_0_r (length (heap w))), !alter_app_r.
      reflexivity. }
  destruct (freeze d []) as [fr|e] eqn:HD.
  - rewrite (from_scipy_Ok _ _ _ _ _ HD). simpl.
    split; [reflexivity|split; [discriminate|]]. intros _.
    rewrite <- (Nat.add_0_r (length (heap w))), !alter_app_r.
    eexists. reflexivity.
  - rewrite (from_scipy_Raise _ _ _ _ _ HD). simpl.
    split; [reflexivity|split; [discriminate|]]. intros _.
    eexists. reflexivity.
Qed.

(** X2. Whatever its outcome, [rejection_sampler] leaves every instance
    that existed as it was: a [ProposalDistribution] passed as [g] is not
    changed, and a distribution family passed as [g] adds one instance,
    the proposal built from it, and changes no other. *)
Theorem instances_left_alone :
  forall fuel (f g M N : @pyobj G) (w w' : world) r,
    rejection_sampler fuel f g M N w = Some (r, w') ->
    uninit w' = uninit w /\
    (isinstance_rv_continuous g = false -> heap w' = heap w) /\
    (isinstance_rv_continuous g = true ->
     heap w' = heap w \/ exists d, heap w' = heap w ++ [d]).
Proof.
  intros fuel f g M N w w' r. unfold rejection_sampler.
  assert (Hsame : forall e, Some (@Raise (list float) e, w) = Some (r, w') ->
    uninit w' = uninit w /\
    (isinstance_rv_continuous g = false -> heap w' = heap w) /\
    (isinstance_rv_continuous g = true ->
     heap w' = heap w \/ exists d, heap w' = heap w ++ [d])).
  { intros e [= _ <-]. auto. }
  destruct (negb (isinstance_FunctionType f)); [apply Hsame|].
  destruct (negb _); [apply Hsame|]. clear Hsame.
  destruct (adapt_heap g w) as (Hu & Hh0 & Hh1).
  destruct (adapt g w) as [[g'|e] w1]; simpl in Hu, Hh0, Hh1.
  2:{ intros [= _ <-]. split; [exact Hu|]. split; [exact Hh0|]. auto. }
  assert (Hw1 : forall r0 w0,
    Some (r0, w0) = Some (r, w') ->
    heap w0 = heap w1 -> uninit w0 = uninit w1 ->
    uninit w' = uninit w /\
    (isinstance_rv_continuous g = false -> heap w' = heap w) /\
    (isinstance_rv_continuous g = true ->
     heap w' = heap w \/ exists d, heap w' = heap w ++ [d])).
  { intros r0 w0 [= _ <-] Hh Hu0. split; [congruence|]. split.
    - intros Hg. rewrite Hh. auto.
    - intros Hg. right. rewrite Hh. auto. }
  destruct (negb (isinstance_int_or_float M));
    [intros H; exact (Hw1 _ _ H eq_refl eq_refl)|].
  destruct M as [|m| | | | | |];
    try (intros H; exact (Hw1 _ _ H eq_refl eq_refl)).
  destruct (py_le m (NInt 0)); [intros H; exact (Hw1 _ _ H eq_refl eq_refl)|].
  destruct (negb (isinstance_int N));
    [intros H; exact (Hw1 _ _ H eq_refl eq_refl)|].
  destruct N as [|n| | | | | |];
    try (intros H; exact (Hw1 _ _ H eq_refl eq_refl)).
  destruct (py_le n (NInt 0)); [intros H; exact (Hw1 _ _ H eq_refl eq_refl)|].
  assert (He : heap (empty n w1).2 = heap w1 /\ uninit (empty n w1).2 = uninit w1).
  { unfold empty. destruct n as [b|z|x]; try (split; reflexivity).
    destruct (z <? 0); split; reflexivity. }
  destruct (empty n w1) as [[samples|e] w2]; simpl in He; destruct He as [He1 He2].
  - intros H. destruct r as [r|e].
    + destruct (sampling_loop_keeps _ _ _ _ _ _ _ _ _ _ _ H) as [Hh Hu'].
      apply (Hw1 (Ok r) w'); [reflexivity|congruence|congruence].
    + destruct (sampling_loop_keeps _ _ _ _ _ _ _ _ _ _ _ H) as [Hh Hu'].
      apply (Hw1 (Raise e) w'); [reflexivity|congruence|congruence].
  - intros H. exact (Hw1 _ _ H He1 He2).
Qed.

(** ** Leaving the loop on the budget *)

(** [K] passes within the budget that leave the buffer short of [N]
    candidates: the loop stores the accepted ones and goes on. *)
Lemma sampling_loop_prefix f g M N MMN : forall K fuel samples n k w ts w' vs,
  budget M (NInt N) = Ok MMN ->
  (forall j, k <= j < k + Z.of_nat K -> py_gt (NInt j) MMN = false) ->
  trials K f g M w = (Ok ts, w') ->
  Forall2 (fun x v => float_of x = Ok v) (accepted ts) vs ->
  0 <= n -> n + Z.of_nat (length vs) < N -> N <= Z.of_nat (length samples) ->
  sampling_loop (K + fuel) f g M (NInt N) samples n k w
  = sampling_loop fuel f g M (NInt N) (store_all samples (Z.to_nat n) vs)
      (n + Z.of_nat (length vs)) (k + Z.of_nat K) w'.
Proof.
  induction K as [|K IH];
    intros fuel samples n k w ts w' vs HB Hk Ht Hvs Hn HN Hlen.
  - simpl in Ht. injection Ht as <- <-. simpl in Hvs.
    apply Forall2_nil_inv_l in Hvs. subst vs. simpl.
    rewrite !Z.add_0_r. reflexivity.
  - simpl in Ht.
    destruct (trial f g M w) as [[[[x u] b]|e] w1] eqn:Ht1; [|discriminate].
    destruct (trials K f g M w1) as [[ts'|e] w2] eqn:Ht2; [|discriminate].
    injection Ht as <- <-.
    change (S K + fuel)%nat with (S (K + fuel)). simpl sampling_loop.
    unfold py_lt at 1. simpl scalar_of. cbv iota.
    replace (n <? N) with true by lia.
    simpl negb. cbv iota. rewrite HB.
    rewrite (Hk k) by lia. rewrite Ht1.
    destruct b.
    + simpl in Hvs. apply Forall2_cons_inv_l in Hvs.
      destruct Hvs as (v & vs' & Hv & Hvs' & ->).
      unfold setitem. rewrite Hv. simpl result_bind. simpl length in HN.
      replace ((0 <=? n) && (n <? Z.of_nat (length samples))) with true
        by (symmetry; apply andb_true_intro; split; lia).
      rewrite (IH fuel _ (n + 1) (k + 1) w1 ts' w2 vs'); try assumption;
        try lia.
      * simpl. replace (Z.to_nat (n + 1)) with (S (Z.to_nat n)) by lia.
        f_equal; lia.
      * intros j Hj. apply Hk. lia.
      * rewrite length_insert. lia.
    + simpl in Hvs.
      rewrite (IH fuel samples n (k + 1) w1 ts' w2 vs); try assumption;
        try lia.
      * f_equal; lia.
      * intros j Hj. apply Hk. lia.
Qed.

(** X3. When [K] passes are within the iteration budget, the count [K]
    exceeds it, and fewer than [N] candidates were accepted, the call
    returns, without raising, an array of [N] entries: the accepted
    candidates in order, followed by the rest of the buffer as
    [numpy.empty] allocated it. *)
Theorem early_exit_keeps_fresh_tail :
  forall K fuel body self (M : num) (N : Z) MMN (w w' : @world G) ts vs,
    let f := VCallable FunctionType body in
    let g := VInstance self in
    py_le M (NInt 0) = false ->
    0 < N ->
    budget M (NInt N) = Ok MMN ->
    (forall j, 0 <= j < Z.of_nat K -> py_gt (NInt j) MMN = false) ->
    py_gt (NInt (Z.of_nat K)) MMN = true ->
    trials K f g M w = (Ok ts, w') ->
    Forall2 (fun x v => float_of x = Ok v) (accepted ts) vs ->
    Z.of_nat (length vs) < N ->
    (K < fuel)%nat ->
    rejection_sampler fuel f g (VNum M) (VNum (NInt N)) w
    = Some (Ok (vs ++ drop (length vs)
                        (map (uninit w) (seq 0 (Z.to_nat N)))), w').
Proof.
  intros K fuel body self M N MMN w w' ts vs f g HM HN HB Hk HK Ht Hvs Hlen
    Hfuel. subst f g.
  rewrite rejection_sampler_valid by assumption.
  replace fuel with (K + (fuel - K))%nat by lia.
  rewrite (sampling_loop_prefix _ _ M N MMN K _ _ 0 0 w ts w' vs);
    try assumption; try lia.
  2:{ rewrite length_map, length_seq. lia. }
  destruct (fuel - K)%nat as [|fuel'] eqn:Hf; [lia|].
  rewrite (sampling_loop_break fuel' _ _ M (NInt N) MMN); try assumption.
  - rewrite store_all_spec by (rewrite length_map, length_seq; simpl; lia).
    reflexivity.
  - unfold py_lt. simpl. lia.
Qed.

(** ** Termination on a finite budget *)

(** X4. When [M * M * N] is a number with a ceiling [B], that is when it
    is neither infinite nor NaN, the call returns or raises within
    [B + 2] evaluations of the loop condition, whatever [f] and [g] do and
    however few candidates are accepted. *)
Theorem finite_budget_terminates :
  forall fuel (f g : @pyobj G) (m n : num) (w : world) MMN B,
    budget m n = Ok MMN ->
    budget_ceiling MMN = Some B ->
    (Z.to_nat (B + 1) < fuel)%nat ->
    exists r, rejection_sampler fuel f g (VNum m) (VNum n) w = Some r.
Proof.
  intros fuel f g m n w MMN B HB HC Hfuel.
  apply (returns_within_ceiling fuel f g _ _ w B); [|exact Hfuel].
  intros m' n' MMN' [= <-] [= <-] HB'. rewrite HB in HB'.
  injection HB' as <-. exists B. split; [exact HC|lia].
Qed.

(** ** A family that cannot be frozen without parameters *)

(** X5. A distribution family is adapted before [M] and [N] are looked
    at: when freezing it with no parameter raises, as it does for a family
    with a required shape parameter, that exception is what the call
    raises, whatever [M] and [N] are, and the instance made for the
    adaptation stays behind with [None] in both attributes. *)
Theorem failing_family_raises_first :
  forall fuel body (D : @rv_continuous G) (M N : pyobj) (w : world) e,
    freeze D [] = Raise e ->
    rejection_sampler fuel (VCallable FunctionType body) (VRvContinuous D)
      M N w
    = Some (Raise e,
            World (rng w)
              (heap w ++ [<["density" := VNone]> (<["sample" := VNone]> ∅)])
              (uninit w)).
Proof.
  intros fuel body D M N w e HD. unfold rejection_sampler.
  simpl negb. cbv iota. unfold adapt, bind.
  rewrite heap_ProposalDistribution, (from_scipy_Raise _ _ _ _ _ HD).
  rewrite <- (Nat.add_0_r (length (heap w))), !alter_app_r. reflexivity.
Qed.

(** ** from_scipy and the constructor *)

Lemma lookup_other_instance (h h' : list (gmap string (@pyobj G))) r r' u u'
    other name :
  h' !! other = h !! other ->
  lookup (World r' h' u') other name = lookup (World r h u) other name.
Proof. intros H. unfold lookup. simpl. rewrite H. reflexivity. Qed.

(** X6. [from_scipy] rebinds [sample] and [density] of the instance it is
    called on, whatever they were bound to, and returns that instance; it
    changes no other attribute, no other instance and not the generator.
    When [scipy_distribution(params)] raises, nothing at all is changed. *)
Theorem from_scipy_rebinds_only_self :
  forall self (D : @rv_continuous G) args (w : world),
    (forall e, freeze D args = Raise e ->
       from_scipy self D args w = (Raise e, w)) /\
    (forall fr, freeze D args = Ok fr ->
       exists w', from_scipy self D args w = (Ok self, w') /\
         rng w' = rng w /\
         uninit w' = uninit w /\
         length (heap w') = length (heap w) /\
         (forall d, heap w !! self = Some d ->
            lookup w' self "sample"
            = InstanceAttr (VCallable MethodType (rvs fr)) /\
            lookup w' self "density"
            = InstanceAttr (VCallable MethodType (pdf fr))) /\
         (forall name, name <> "sample" -> name <> "density" ->
            lookup w' self name = lookup w self name) /\
         (forall other name, other <> self ->
            lookup w' other name = lookup w other name)).
Proof.
  intros self D args w. split.
  - intros e HD. apply from_scipy_Raise. exact HD.
  - intros fr HD. rewrite (from_scipy_Ok _ _ _ _ _ HD).
    eexists. split; [reflexivity|]. simpl.
    split; [reflexivity|]. split; [reflexivity|].
    split; [rewrite !length_alter; reflexivity|]. split; [|split].
    + intros d Hd.
      pose proof (lookup_from_scipy self D args fr d w HD Hd) as Hl.
      cbv zeta in Hl. rewrite (from_scipy_Ok _ _ _ _ _ HD) in Hl.
      exact Hl.
    + intros name Hs Hd. unfold lookup. simpl.
      rewrite !list_lookup_alter_eq.
      destruct (heap w !! self) as [d|]; simpl; [|reflexivity].
      rewrite !lookup_insert_ne by congruence. reflexivity.
    + intros other name Hne. destruct w as [r h u]. simpl.
      apply lookup_other_instance.
      rewrite !list_lookup_alter_ne by congruence. reflexivity.
Qed.

(** X7. Built from a family that freezes with the given parameters, the
    instance that [ProposalDistribution(D(params).rvs, D(params).pdf)]
    makes and the one that [ProposalDistribution().from_scipy(D, params)]
    makes are the same: the same reference, with the same attributes, in
    the same state of the world. *)
Theorem constructors_build_equal_instances :
  forall (D : @rv_continuous G) args fr (w : world),
    freeze D args = Ok fr ->
    direct_constructor D args w = scipy_constructor D args w.
Proof.
  intros D args fr w HD.
  unfold direct_constructor, scipy_constructor, bind, lift.
  rewrite HD, !heap_ProposalDistribution, (from_scipy_Ok _ _ _ _ _ HD).
  simpl. f_equal. f_equal.
  rewrite <- (Nat.add_0_r (length (heap w))), !alter_app_r. simpl.
  apply (f_equal (fun d => heap w ++ [d])).
  apply map_eq. intros name.
  destruct (decide (name = "density")) as [->|Hd].
  { rewrite !lookup_insert_eq. reflexivity. }
  rewrite !(lookup_insert_ne _ "density") by congruence.
  destruct (decide (name = "sample")) as [->|Hs].
  { rewrite !lookup_insert_eq. reflexivity. }
  rewrite !(lookup_insert_ne _ "sample") by congruence.
  rewrite !(lookup_insert_ne _ "density") by congruence.
  rewrite !(lookup_insert_ne _ "sample") by congruence.
  reflexivity.
Qed.

(** ** NaN for M *)

Lemma Prim2SF_nan : Prim2SF nan = S754_nan.
Proof. reflexivity. Qed.

Lemma nan_mul y : (nan * y)%float = nan.
Proof.
  apply Prim2SF_inj. rewrite mul_spec, Prim2SF_nan. reflexivity.
Qed.

Lemma div_nan x : (x / nan)%float = nan.
Proof.
  apply Prim2SF_inj. rewrite div_spec, Prim2SF_nan.
  unfold SF64div, SFdiv. destruct (Prim2SF x); reflexivity.
Qed.

Lemma leb_nan u : (u <=? nan)%float = false.
Proof.
  rewrite FloatAxioms.leb_spec, Prim2SF_nan. unfold SFleb, SFcompare.
  destruct (Prim2SF u); reflexivity.
Qed.

Lemma py_mul_nan d Md : py_mul (NFloat nan) d = Ok Md -> Md = NFloat nan.
Proof.
  unfold py_mul. simpl.
  destruct (scalar_of d); destruct (to_float d) as [?|?]; simpl;
    try discriminate; rewrite nan_mul; congruence.
Qed.

Lemma py_truediv_nan fx r :
  py_truediv fx (NFloat nan) = Ok r -> r = NFloat nan.
Proof.
  unfold py_truediv. simpl.
  destruct (scalar_of fx); destruct (to_float fx) as [?|?]; simpl;
    try discriminate; rewrite div_nan; congruence.
Qed.

Lemma val_mul_nan d Md :
  val_mul (Py (NFloat nan)) d = Ok Md -> num_of Md = NFloat nan.
Proof.
  destruct d as [b|y]; simpl.
  - destruct (py_mul (NFloat nan) b) as [c|e] eqn:Hc; [|discriminate].
    apply py_mul_nan in Hc. subst c. intros [= <-]. reflexivity.
  - intros [= <-]. simpl. rewrite nan_mul. reflexivity.
Qed.

Lemma val_truediv_nan fx Md r :
  num_of Md = NFloat nan -> val_truediv fx Md = Ok r ->
  num_of r = NFloat nan.
Proof.
  assert (Hnp :
    result_bind (float_of fx) (fun x => Ok (Float64 (x / nan)%float)) = Ok r ->
    num_of r = NFloat nan).
  { destruct (float_of fx) as [x|e]; simpl; [|discriminate].
    intros [= <-]. simpl. rewrite div_nan. reflexivity. }
  destruct Md as [b|y]; simpl; intros HMd; subst.
  - destruct fx as [a|x]; [|exact Hnp].
    unfold val_truediv.
    destruct (py_truediv a (NFloat nan)) as [c|e] eqn:Hc; [|discriminate].
    apply py_truediv_nan in Hc. subst c. intros [= <-]. reflexivity.
  - injection HMd as ->. destruct fx as [a|x]; exact Hnp.
Qed.

(** With [M = nan] no candidate passes the test: the ratio is NaN, and
    [u <= nan] is false. *)
Lemma trial_nan (f g : @pyobj G) w x u b w' :
  trial f g (NFloat nan) w = (Ok (x, u, b), w') -> b = false.
Proof.
  intros H. apply trial_inv in H.
  destruct H as (w2 & w3 & r & _ & _ & Hr & ->).
  unfold proposal, bind, lift in Hr.
  destruct (call f [x] w3) as [[fx|e] w4]; [|discriminate].
  destruct (call_attr g "density" [x] w4) as [[d|e] w5]; [|discriminate].
  destruct (val_mul (Py (NFloat nan)) d) as [Md|e] eqn:HMd; [|discriminate].
  apply val_mul_nan in HMd.
  destruct (val_truediv fx Md) as [r'|e] eqn:Hdiv; [|discriminate].
  apply (val_truediv_nan _ _ _ HMd) in Hdiv.
  injection Hr as <- _. unfold val_le. rewrite Hdiv.
  unfold py_le. simpl. apply leb_nan.
Qed.

Lemma budget_nan n MMN : budget (NFloat nan) n = Ok MMN -> MMN = NFloat nan.
Proof.
  unfold budget. simpl. apply py_mul_nan.
Qed.

Lemma sampling_loop_nan (f g : @pyobj G) (N : Z) :
  0 < N ->
  forall fuel samples k w samples' w',
    sampling_loop fuel f g (NFloat nan) (NInt N) samples 0 k w
    <> Some (Ok samples', w').
Proof.
  intros HN. induction fuel as [|fuel IH]; intros samples k w samples' w';
    [discriminate|].
  simpl. replace (py_lt (NInt 0) (NInt N)) with true
    by (unfold py_lt; simpl; lia).
  simpl negb. cbv iota.
  destruct (budget (NFloat nan) (NInt N)) as [MMN|e] eqn:HB; [|discriminate].
  apply budget_nan in HB. subst MMN.
  change (py_gt (NInt k) (NFloat nan)) with false. cbv iota.
  destruct (trial f g (NFloat nan) w) as [[[[x u] b]|e] w1] eqn:Ht;
    [|discriminate].
  rewrite (trial_nan _ _ _ _ _ _ _ Ht). apply IH.
Qed.

(** X8. [nan <= 0] is false, so [M = float('nan')] passes the checks on
    [M]; but then no count of iterations exceeds the budget and no
    candidate passes the test, and the call never returns an array: it
    raises, or it does not return. *)
Theorem nan_M_never_returns_array :
  forall fuel (f g N : @pyobj G) (w w' : world) samples,
    py_le (NFloat nan) (NInt 0) = false /\
    rejection_sampler fuel f g (VNum (NFloat nan)) N w
    <> Some (Ok samples, w').
Proof.
  intros fuel f g N w w' samples. split; [reflexivity|].
  unfold rejection_sampler.
  destruct (negb (isinstance_FunctionType f)); [discriminate|].
  destruct (negb _); [discriminate|].
  destruct (adapt g w) as [[g'|e] w1]; [|discriminate].
  simpl isinstance_int_or_float. simpl negb. cbv iota.
  change (py_le (NFloat nan) (NInt 0)) with false. cbv iota.
  destruct (negb (isinstance_int N)); [discriminate|].
  destruct N as [|n| | | | | |]; try discriminate.
  destruct (py_le n (NInt 0)) eqn:Hn; [discriminate|].
  destruct n as [b|n|x]; simpl; try discriminate.
  destruct (n <? 0); [discriminate|].
  apply sampling_loop_nan. unfold py_le in Hn. simpl in Hn. lia.
Qed.

(** ** main *)

(** X9. [main()] passes every argument check of [rejection_sampler]; its
    budget is [2 * 2 * 1000 = 4000], so it returns or raises within 4002
    evaluations of the loop condition, whatever is drawn; and an array it
    returns has 1000 entries. *)
Theorem main_returns_within_budget :
  forall fuel (norm : @rv_continuous G) (target : code) (w : world),
    (4002 <= fuel)%nat ->
    exists r w',
      main uniform_rvs fuel norm target w = Some (r, w') /\
      forall samples, r = Ok samples -> length samples = 1000%nat.
Proof.
  intros fuel norm target w Hfuel. unfold main.
  destruct (scipy_constructor norm [] w) as [[g|e] w1].
  2:{ eexists _, _. split; [reflexivity|]. discriminate. }
  rewrite rejection_sampler_valid by (reflexivity || lia).
  destruct (sampling_loop_returns (VCallable FunctionType target)
              (VInstance g) (NInt 2) (NInt 1000) (NInt 4000) 4000
              eq_refl eq_refl fuel
              (map (uninit w1) (seq 0 (Z.to_nat 1000))) 0 0 w1)
    as [[r w'] Hr]; [lia|].
  exists r, w'. split; [exact Hr|].
  intros samples ->. apply sampling_loop_length in Hr.
  rewrite Hr, length_map, length_seq. reflexivity.
Qed.

(** ** Exceptions of the callables *)

(** X12. Nothing in the loop catches an exception. When, after [K] passes
    within the budget that left the buffer short of [N] candidates, the
    next pass raises, be it in [g.sample()], in [f(x)], in [g.density(x)]
    or in the arithmetic of [proposal], the call raises that exception in
    the state the pass left, and the candidates accepted before it are
    lost to the caller. *)
Theorem exception_in_pass_propagates :
  forall K fuel body self (M : num) (N : Z) MMN (w w' w'' : @world G) ts vs e,
    let f := VCallable FunctionType body in
    let g := VInstance self in
    py_le M (NInt 0) = false ->
    0 < N ->
    budget M (NInt N) = Ok MMN ->
    (forall j, 0 <= j <= Z.of_nat K -> py_gt (NInt j) MMN = false) ->
    trials K f g M w = (Ok ts, w') ->
    Forall2 (fun x v => float_of x = Ok v) (accepted ts) vs ->
    Z.of_nat (length vs) < N ->
    trial f g M w' = (Raise e, w'') ->
    (K < fuel)%nat ->
    rejection_sampler fuel f g (VNum M) (VNum (NInt N)) w
    = Some (Raise e, w'').
Proof.
  intros K fuel body self M N MMN w w' w'' ts vs e f g HM HN HB Hk Ht Hvs
    Hlen Hraise Hfuel. subst f g.
  rewrite rejection_sampler_valid by assumption.
  replace fuel with (K + (fuel - K))%nat by lia.
  rewrite (sampling_loop_prefix _ _ M N MMN K _ _ 0 0 w ts w' vs);
    try assumption; try lia.
  2:{ intros j Hj. apply Hk. lia. }
  2:{ rewrite length_map, length_seq. lia. }
  destruct (fuel - K)%nat as [|fuel'] eqn:Hf; [lia|].
  simpl sampling_loop.
  unfold py_lt at 1. simpl scalar_of. cbv iota.
  replace (0 + Z.of_nat (length vs) <? N) with true by lia.
  simpl negb. cbv iota. rewrite HB.
  rewrite (Hk (0 + Z.of_nat K)) by lia.
  rewrite Hraise. reflexivity.
Qed.

(** ** A proposal that was not configured *)

(** X13. [ProposalDistribution()] and [ProposalDistribution(density=d)]
    pass the check on [g], which looks at the class only. With the other
    arguments valid, the call then raises [TypeError] at the first
    [g.sample()], where it calls [None]; no candidate is drawn and the
    generator is not advanced. *)
Theorem unconfigured_proposal_raises :
  forall fuel body density (M : num) (N : Z) MMN (w : @world G),
    py_le M (NInt 0) = false ->
    0 < N ->
    budget M (NInt N) = Ok MMN ->
    py_gt (NInt 0) MMN = false ->
    (0 < fuel)%nat ->
    exists self w',
      ProposalDistribution VNone density w = (Ok self, w') /\
      rng w' = rng w /\
      rejection_sampler fuel (VCallable FunctionType body) (VInstance self)
        (VNum M) (VNum (NInt N)) w'
      = Some (Raise NoneType_error, w').
Proof.
  intros fuel body density M N MMN w HM HN HB Hk Hfuel.
  exists (length (heap w)), (ProposalDistribution VNone density w).2.
  split; [|split].
  - rewrite heap_ProposalDistribution. reflexivity.
  - reflexivity.
  - destruct (lookup_ProposalDistribution VNone density w) as [Hl _].
    cbv zeta in Hl.
    generalize dependent (ProposalDistribution VNone density w).2.
    intros w' Hl.
    rewrite rejection_sampler_valid by assumption.
    destruct fuel as [|fuel]; [lia|]. simpl sampling_loop.
    unfold py_lt at 1. simpl scalar_of. cbv iota.
    replace (0 <? N) with true by lia.
    simpl negb. cbv iota. rewrite HB, Hk.
    rewrite trial_eq. unfold bind at 1.
    unfold call_attr, call_method. rewrite Hl. reflexivity.
Qed.

(** ** The number of candidates drawn *)

Lemma sampling_loop_draws f g M N MMN B :
  budget M N = Ok MMN ->
  budget_ceiling MMN = Some B ->
  forall fuel samples n k (w w' : @world G) r,
    sampling_loop fuel f g M N samples n k w = Some (r, w') ->
    exists K, Z.of_nat K <= Z.max 0 (B + 1 - k) /\
      ((exists ts, trials K f g M w = (Ok ts, w')) \/
       (exists e, trials K f g M w = (Raise e, w') /\ r = Raise e)).
Proof.
  intros HB HC. induction fuel as [|fuel IH]; intros samples n k w w' r H;
    [discriminate|].
  simpl in H. destruct (py_lt (NInt n) N); simpl in H.
  2:{ injection H as <- <-. exists 0%nat. split; [lia|]. left. eauto. }
  rewrite HB in H. destruct (py_gt (NInt k) MMN) eqn:Hk.
  { injection H as <- <-. exists 0%nat. split; [lia|]. left. eauto. }
  assert (k <= B).
  { destruct (Z.le_gt_cases k B) as [|Hlt]; [assumption|].
    rewrite (budget_ceiling_exceeded _ _ _ HC) in Hk by lia.
    discriminate. }
  destruct (trial f g M w) as [[[[x u] b]|e] w1] eqn:Ht.
  - assert (Hrec : forall samples1 n1,
      sampling_loop fuel f g M N samples1 n1 (k + 1) w1 = Some (r, w') ->
      exists K, Z.of_nat K <= Z.max 0 (B + 1 - k) /\
        ((exists ts, trials K f g M w = (Ok ts, w')) \/
         (exists e, trials K f g M w = (Raise e, w') /\ r = Raise e))).
    { intros samples1 n1 H1.
      destruct (IH _ _ _ _ _ _ H1) as (K & HK & Hts).
      exists (S K). split; [lia|]. simpl. rewrite Ht.
      destruct Hts as [[ts Hts]|[e [Hts ->]]]; rewrite Hts.
      - left. eauto.
      - right. eauto. }
    destruct b.
    + destruct (setitem samples n x) as [samples1|e].
      * eapply Hrec. exact H.
      * injection H as <- <-. exists 1%nat. split; [lia|].
        left. simpl. rewrite Ht. eauto.
    + eapply Hrec. exact H.
  - injection H as <- <-. exists 1%nat. split; [lia|].
    right. exists e. simpl. rewrite Ht. eauto.
Qed.

(** X14. With a budget [M * M * N] that has a ceiling [B], a call that
    returns or raises has made at most [B + 1] passes through the draws:
    [g.sample], [uniform().rvs], [f] and [g.density] are each called at
    most [B + 1] times, and the state the call leaves is the state after
    those passes, the last of which may be the one that raised. *)
Theorem draws_within_budget :
  forall fuel body self (M : num) (N : Z) MMN B (w w' : @world G) r,
    let f := VCallable FunctionType body in
    let g := VInstance self in
    py_le M (NInt 0) = false ->
    0 < N ->
    budget M (NInt N) = Ok MMN ->
    budget_ceiling MMN = Some B ->
    rejection_sampler fuel f g (VNum M) (VNum (NInt N)) w = Some (r, w') ->
    exists K, Z.of_nat K <= Z.max 0 (B + 1) /\
      ((exists ts, trials K f g M w = (Ok ts, w')) \/
       (exists e, trials K f g M w = (Raise e, w') /\ r = Raise e)).
Proof.
  intros fuel body self M N MMN B w w' r f g HM HN HB HC H. subst f g.
  rewrite rejection_sampler_valid in H by assumption.
  destruct (sampling_loop_draws _ _ _ _ _ _ HB HC _ _ _ _ _ _ _ H)
    as (K & HK & Hts).
  exists K. split; [|exact Hts]. rewrite Z.sub_0_r in HK. exact HK.
Qed.

(** ** What the call raises by itself *)

Lemma to_float_raises a e : to_float a = Raise e -> e = OverflowError.
Proof.
  unfold to_float, float_of_int. destruct (scalar_of a); [|discriminate].
  destruct (is_infinity _); [|discriminate]. congruence.
Qed.

Lemma py_mul_raises a b e : py_mul a b = Raise e -> e = OverflowError.
Proof.
  unfold py_mul.
  assert (Hf : result_bind (to_float a) (fun x =>
                 result_bind (to_float b) (fun y =>
                 Ok (NFloat (x * y)%float))) = Raise e ->
               e = OverflowError).
  { destruct (to_float a) as [x|e1] eqn:Ha; simpl.
    - destruct (to_float b) as [y|e2] eqn:Hb; simpl; [discriminate|].
      intros [= <-]. eapply to_float_raises. exact Hb.
    - intros [= <-]. eapply to_float_raises. exact Ha. }
  destruct (scalar_of a), (scalar_of b); try exact Hf. discriminate.
Qed.

Lemma budget_raises M N e : budget M N = Raise e -> e = OverflowError.
Proof.
  unfold budget. destruct (py_mul M M) as [MM|e1] eqn:HMM; simpl.
  - apply py_mul_raises.
  - intros [= <-]. eapply py_mul_raises. exact HMM.
Qed.

Lemma setitem_raises samples n x e :
  0 <= n < Z.of_nat (length samples) ->
  setitem samples n x = Raise e -> e = OverflowError.
Proof.
  intros Hn. unfold setitem. destruct (float_of x) as [v|e1] eqn:Hx; simpl.
  - replace ((0 <=? n) && (n <? Z.of_nat (length samples))) with true
      by (symmetry; apply andb_true_intro; split; lia).
    discriminate.
  - intros [= <-]. eapply to_float_raises. exact Hx.
Qed.

Lemma sampling_loop_raises f g M N : forall fuel samples n k (w w' : @world G) e,
  0 <= n -> N <= Z.of_nat (length samples) ->
  sampling_loop fuel f g M (NInt N) samples n k w = Some (Raise e, w') ->
  e = OverflowError \/ exists w1, trial f g M w1 = (Raise e, w').
Proof.
  induction fuel as [|fuel IH]; intros samples n k w w' e Hn Hlen H;
    [discriminate|].
  simpl in H. unfold py_lt at 1 in H. simpl scalar_of in H. cbv iota in H.
  destruct (n <? N) eqn:HnN; simpl in H; [|discriminate].
  destruct (budget M (NInt N)) as [MMN|e1] eqn:HB.
  2:{ injection H as <- <-. left. eapply budget_raises. exact HB. }
  destruct (py_gt (NInt k) MMN); [discriminate|].
  destruct (trial f g M w) as [[[[x u] [|]]|e1] w1] eqn:Ht.
  - destruct (setitem samples n x) as [samples1|e1] eqn:Hs.
    + apply IH in H; [exact H|lia|].
      rewrite (setitem_length _ _ _ _ Hs). exact Hlen.
    + injection H as <- <-. left.
      apply (setitem_raises samples n x); [lia|exact Hs].
  - apply IH in H; assumption.
  - injection H as <- <-. right. exists w. exact Ht.
Qed.


(** ** A zero density with numpy's division *)

Lemma is_zero_Prim2SF z :
  is_zero z = true -> exists s, Prim2SF z = S754_zero s.
Proof.
  unfold is_zero. rewrite FloatAxioms.eqb_spec. unfold SFeqb, SFcompare.
  change (Prim2SF zero) with (S754_zero false).
  destruct (Prim2SF z) as [s|s| |s m e];
    [eauto|destruct s; discriminate|discriminate|destruct s; discriminate].
Qed.

Lemma div_by_zero v z s :
  Prim2SF z = S754_zero s ->
  Prim2SF (v / z) = S754_nan \/ exists s', Prim2SF (v / z) = S754_infinity s'.
Proof.
  intros Hz. rewrite div_spec, Hz. unfold SF64div, SFdiv.
  destruct (Prim2SF v); eauto.
Qed.

Lemma val_truediv_float64 fx Md v z :
  is_float64 fx || is_float64 Md = true ->
  float_of fx = Ok v -> float_of Md = Ok z ->
  val_truediv fx Md = Ok (Float64 (v / z)).
Proof.
  intros H Hv Hz. destruct fx as [a|x], Md as [b|y]; try discriminate H;
    unfold val_truediv; rewrite Hv, Hz; reflexivity.
Qed.

(** X16. When [f(x)] or [M * g.density(x)] is a [numpy.float64], as the
    density of every scipy distribution is, the division in [proposal] is
    numpy's, and a zero [M * g.density(x)] raises nothing: the ratio is
    [inf] or [nan], the pass completes, and the candidate is accepted when
    [u <= ratio]. With [N = 1] the call then returns that candidate, drawn
    at a point where the proposal has no density. *)
Theorem float64_zero_density_goes_on :
  forall fuel body self (M : num) MMN (w w1 w2 w3 w4 : @world G)
         x u fx d Md v z,
    let f := VCallable FunctionType body in
    let g := VInstance self in
    py_le M (NInt 0) = false ->
    budget M (NInt 1) = Ok MMN ->
    py_gt (NInt 0) MMN = false ->
    call_attr g "sample" [] w = (Ok x, w1) ->
    uniform uniform_rvs w1 = (Ok u, w2) ->
    call f [x] w2 = (Ok fx, w3) ->
    call_attr g "density" [x] w3 = (Ok d, w4) ->
    val_mul (Py M) d = Ok Md ->
    is_float64 fx || is_float64 Md = true ->
    float_of fx = Ok v ->
    float_of Md = Ok z ->
    is_zero z = true ->
    (1 < fuel)%nat ->
    trial f g M w = (Ok (x, u, (u <=? v / z)%float), w4) /\
    (Prim2SF (v / z) = S754_nan \/
     exists s, Prim2SF (v / z) = S754_infinity s) /\
    (forall xv,
       (u <=? v / z)%float = true -> float_of x = Ok xv ->
       rejection_sampler fuel f g (VNum M) (VNum (NInt 1)) w
       = Some (Ok [xv], w4)).
Proof.
  intros fuel body self M MMN w w1 w2 w3 w4 x u fx d Md v z f g
    HM HB Hk Hx Hu Hfx Hd HMd H64 Hv Hz Hz0 Hfuel.
  subst f g.
  assert (Ht : trial (VCallable FunctionType body) (VInstance self) M w
               = (Ok (x, u, (u <=? v / z)%float), w4)).
  { rewrite trial_eq. unfold bind at 1. rewrite Hx.
    unfold bind at 1. rewrite Hu.
    unfold bind at 1. unfold proposal. unfold bind at 1. rewrite Hfx.
    unfold bind at 1. rewrite Hd.
    unfold bind, lift. rewrite HMd.
    rewrite (val_truediv_float64 _ _ _ _ H64 Hv Hz). reflexivity. }
  split; [exact Ht|split].
  - destruct (is_zero_Prim2SF _ Hz0) as [s Hs].
    exact (div_by_zero v z s Hs).
  - intros xv Hacc Hxv. rewrite Hacc in Ht.
    apply (rejection_sampler_completes 1 fuel body self M 1 MMN w w4
             [(x, u, true)] [xv]).
    + exact HM.
    + lia.
    + exact HB.
    + intros j Hj. replace j with 0 by lia. exact Hk.
    + simpl. rewrite Ht. reflexivity.
    + reflexivity.
    + repeat constructor. exact Hxv.
    + reflexivity.
    + exact Hfuel.
Qed.

End Properties.

(** * The properties on concrete inputs *)

(** [lambda x: 0.25], [lambda x: x] and the proposal at reference 0. *)
Abbreviation quarter := (VCallable FunctionType (constant 0.25)).
Abbreviation ident := (VCallable FunctionType identity).
Abbreviation g0 := (@VInstance nat 0).
Abbreviation int n := (@VNum nat (NInt n)).




(** C6 on a run: a proposal written in Python,
    [ProposalDistribution(lambda: 2.0, lambda x: 0.0)], with
    [f = lambda x: 0.25], [M = 1] and [N = 1]. Every operand is a Python
    number, [1 * 0.0] is [0.0], and [0.25 / 0.0] raises. *)
Lemma zero_density_raises_witness :
  let w := world_with (VCallable FunctionType (constant 2))
             (VCallable FunctionType (constant 0)) 0 in
  rejection_sampler (replay steady) 5 quarter g0 (int 1) (int 1) w
  = Some (Raise ZeroDivisionError,
          World 1%nat (heap w) (fun _ => 0%float)).
Proof.
  cbv zeta.
  refine (zero_density_raises (replay steady) 5 (constant 0.25) 0%nat
    (NInt 1) 1 (NInt 1) _ (World 0%nat _ _) (World 1%nat _ _)
    (World 1%nat _ _) (World 1%nat _ _)
    (Py (NFloat 2)) 0.5%float (NFloat 0.25) 0.25%float (NFloat 0) (NFloat 0)
    _ _ _ _ _ _ _ _ _ _ _ _ _);
    first [lia | reflexivity].
Defined.

(** C8 on a run: with [M = True] a string for [N] is what is reported,
    and with [N = True] the call reaches the allocation of the buffer,
    which is where numpy refuses a [bool] for a length. *)
Lemma booleans_pass_validation_witness :
  let w := uniform_proposal steady 0 in
  let run := rejection_sampler (replay steady) 5 in
  run quarter g0 (VNum (NBool true)) (VStr "0") w
  = Some (Raise N_type_error, w) /\
  run quarter g0 (VNum (NBool true)) (int 1) w
  = sampling_loop (replay steady) 5 quarter g0 (NBool true) (NInt 1)
      [0%float] 0 0 w /\
  run quarter g0 (int 1) (VNum (NBool true)) w
  = Some (Raise (TypeError
            "expected a sequence of integers or a single integer"), w).
Proof.
  cbv zeta.
  pose proof (booleans_pass_validation (replay steady) 5 (constant 0.25)
    g0 g0 (uniform_proposal steady 0) (uniform_proposal steady 0)
    eq_refl eq_refl) as H.
  cbv zeta in H. destruct H as [(_ & _ & HN & Hrun) (_ & Hbool)].
  split; [|split].
  - exact (HN (VStr "0") eq_refl).
  - exact (Hrun 1 eq_refl).
  - exact (Hbool (NInt 1) eq_refl).
Defined.

(** ** Runs that leave the loop early, or never *)

Lemma huge_M_budget : budget (NFloat 1e200) (NInt 1) = Ok (NFloat infinity).
Proof. reflexivity. Qed.

Lemma huge_M_trial s junk :
  trial (replay steady) quarter g0 (NFloat 1e200)
    (World s (heap (uniform_proposal steady 0)) junk)
  = (Ok (Float64 0.5, 0.5%float, false),
     World (S (S s)) (heap (uniform_proposal steady 0)) junk).
Proof. reflexivity. Qed.

(** C2, the failing input: [f = lambda x: 0.25], a uniform proposal,
    [M = 1e200], [N = 1]. [M * M * N] overflows to [inf], which no count
    of iterations exceeds; each candidate is compared with a ratio of
    [0.25 / 1e200] and, with draws of 0.5, rejected. The call does not
    return, whatever the number of iterations allowed. *)
Theorem huge_M_never_returns :
  forall fuel,
    rejection_sampler (replay steady) fuel quarter g0
      (VNum (NFloat 1e200)) (int 1) (uniform_proposal steady 0)
    = None.
Proof.
  intros fuel.
  rewrite rejection_sampler_valid by (reflexivity || lia).
  apply (unbounded_budget_never_stops (replay steady) _ _ _ _
           (NFloat infinity) _ _
           (fun w => heap w = heap (uniform_proposal steady 0))).
  - reflexivity.
  - exact huge_M_budget.
  - exact never_exceeds_infinity.
  - intros [s h junk] Hh. simpl in Hh. subst h.
    eexists _, _, _. split; [apply huge_M_trial|reflexivity].
  - reflexivity.
Qed.

(** C7, the failing input: [f = lambda x: 0.25], a uniform proposal,
    [M = 1], [N = 1] and draws of 0.5. The budget is 1, both candidates
    drawn within it are rejected, and the loop is left with nothing
    stored: the array returned is the buffer as [numpy.empty] handed it
    out. Two calls with the same arguments, from the same state of the
    generator, return different arrays when the memory they are given
    differs. *)
Theorem early_exit_returns_fresh_memory :
  forall junk,
    let w := uniform_proposal steady junk in
    rng w = 0%nat /\
    rejection_sampler (replay steady) 5 quarter g0 (int 1) (int 1) w
    = Some (Ok [junk], World 4%nat (heap w) (uninit w)).
Proof. intros junk. split; reflexivity. Qed.

Lemma early_exit_not_deterministic :
  let run junk :=
    fst <$> rejection_sampler (replay steady) 5 quarter g0 (int 1) (int 1)
              (uniform_proposal steady junk) in
  rng (uniform_proposal steady 0) = rng (uniform_proposal steady 1) /\
  heap (uniform_proposal steady 0) = heap (uniform_proposal steady 1) /\
  run 0%float = Some (Ok [0%float]) /\
  run 1%float = Some (Ok [1%float]) /\
  run 0%float <> run 1%float.
Proof.
  cbv beta zeta.
  assert (Hrun : forall junk,
    rejection_sampler (replay steady) 5 quarter g0 (int 1) (int 1)
      (uniform_proposal steady junk)
    = Some (Ok [junk], World 4%nat (heap (uniform_proposal steady junk))
                         (uninit (uniform_proposal steady junk))))
    by (intros junk; reflexivity).
  rewrite !Hrun.
  split; [reflexivity|split; [reflexivity|split; [reflexivity|]]].
  split; [reflexivity|].
  simpl. intros H.
  apply (f_equal (fun r => match r with
                           | Some (Ok [x]) => (x =? 1)%float
                           | _ => false
                           end)) in H.
  vm_compute in H. discriminate H.
Qed.

(** ** The further properties on concrete runs *)

(** X1 on the run that leaves the loop on the budget with nothing
    accepted. *)
Lemma returned_array_has_length_N_witness :
  exists n, int 1 = VNum (NInt n) /\ 0 < n /\
            Z.of_nat (length [0%float]) = n.
Proof.
  apply (returned_array_has_length_N (replay steady) 5 quarter g0 (int 1)
           (int 1) (uniform_proposal steady 0)
           (World 4%nat (heap (uniform_proposal steady 0)) (fun _ => 0%float))
           [0%float]).
  reflexivity.
Defined.

(** X2 on the same run. *)
Lemma instances_left_alone_witness :
  let w := uniform_proposal steady 0 in
  let w' := World 4%nat (heap w) (fun _ => 0%float) in
  uninit w' = uninit w /\
  (isinstance_rv_continuous g0 = false -> heap w' = heap w) /\
  (isinstance_rv_continuous g0 = true ->
   heap w' = heap w \/ exists d, heap w' = heap w ++ [d]).
Proof.
  cbv zeta.
  apply (instances_left_alone (replay steady) 5 quarter g0 (int 1) (int 1)
           (uniform_proposal steady 0) _ (Ok [0%float])).
  reflexivity.
Defined.

(** X3 on a run with [N = 2]: of the three candidates the budget allows,
    the first is accepted and the other two are not; the second entry of
    the array is what the buffer held when it was allocated. *)
Lemma early_exit_keeps_fresh_tail_witness :
  rejection_sampler (replay once_low) 4 quarter g0 (int 1) (int 2)
    (uniform_proposal once_low 7)
  = Some (Ok [0.5%float; 7%float],
          World 6%nat (heap (uniform_proposal once_low 7))
            (fun _ => 7%float)).
Proof.
  refine (early_exit_keeps_fresh_tail (replay once_low) 3 4 (constant 0.25)
    0%nat (NInt 1) 2 (NInt 2) (uniform_proposal once_low 7)
    (World 6%nat (heap (uniform_proposal once_low 7)) (fun _ => 7%float))
    [(Float64 0.5, 0.125, true); (Float64 0.75, 0.875, false);
     (Float64 0.625, 0.5, false)]%float
    [0.5%float] _ _ _ _ _ _ _ _ _).
  - reflexivity.
  - lia.
  - reflexivity.
  - intros j Hj. unfold py_gt, py_lt. simpl. lia.
  - reflexivity.
  - reflexivity.
  - repeat constructor.
  - simpl. lia.
  - lia.
Defined.

(** X4 on a float budget: [M = 1.5] and [N = 2] give [M * M * N = 4.5],
    which the count 5 exceeds. *)
Lemma finite_budget_terminates_witness :
  exists r,
    rejection_sampler (replay steady) 6 quarter g0 (VNum (NFloat 1.5))
      (int 2) (uniform_proposal steady 0)
    = Some r.
Proof.
  apply (finite_budget_terminates (replay steady) 6 quarter g0 (NFloat 1.5)
           (NInt 2) (uniform_proposal steady 0) (NFloat 4.5) 4).
  - reflexivity.
  - reflexivity.
  - simpl. lia.
Defined.

(** X5 on a family with a required shape parameter and [M = -1]: the
    error is the one of the family, not the one about [M]. *)
Lemma failing_family_raises_first_witness :
  rejection_sampler (replay steady) 5 quarter (VRvContinuous scipy_needs_shape)
    (int (-1)) (int 1) (fresh_world 0)
  = Some (Raise (TypeError "missing 1 required positional argument"),
          World 0%nat [<["density" := VNone]> (<["sample" := VNone]> ∅)]
            (fun _ => 0%float)).
Proof.
  exact (failing_family_raises_first (replay steady) 5 (constant 0.25)
           scipy_needs_shape (int (-1)) (int 1) (fresh_world 0) _ eq_refl).
Defined.

(** X7 on [uniform(2, 3)]. *)
Lemma constructors_build_equal_instances_witness :
  direct_constructor (scipy_uniform steady) [NInt 2; NInt 3] (fresh_world 0)
  = scipy_constructor (scipy_uniform steady) [NInt 2; NInt 3] (fresh_world 0).
Proof.
  apply (constructors_build_equal_instances (scipy_uniform steady)
           [NInt 2; NInt 3]
           {| rvs := uniform_rvs_of steady 2 3; pdf := uniform_pdf 2 3 |}).
  reflexivity.
Defined.

(** X9 with the uniform family standing for [norm]. *)
Lemma main_returns_within_budget_witness :
  exists r w',
    main (replay steady) 4002 (scipy_uniform steady) (constant 0.25)
      (fresh_world 0)
    = Some (r, w') /\
    forall samples, r = Ok samples -> length samples = 1000%nat.
Proof.
  apply (main_returns_within_budget (replay steady) 4002
           (scipy_uniform steady) (constant 0.25) (fresh_world 0)).
  apply le_n.
Defined.

(** X10 on the run of C1's witness, from two worlds whose fresh memory
    differs. *)
Lemma completed_run_is_deterministic_witness :
  fst <$> rejection_sampler (replay mixed) 4 ident g0 (int 1) (int 2)
            (uniform_proposal mixed 0)
  = Some (Ok [0.5; 0.625]%float) /\
  fst <$> rejection_sampler (replay mixed) 4 ident g0 (int 1) (int 2)
            (uniform_proposal mixed 1)
  = Some (Ok [0.5; 0.625]%float).
Proof.
  refine (completed_run_is_deterministic (replay mixed) 3 4 identity 0%nat
    (NInt 1) 2 (NInt 2) (uniform_proposal mixed 0) (uniform_proposal mixed 1)
    (World 6%nat (heap (uniform_proposal mixed 0)) (fun _ => 0%float))
    [(Float64 0.5, 0.5, true); (Float64 0.75, 0.875, false);
     (Float64 0.625, 0.5, true)]%float
    [0.5; 0.625]%float _ _ _ _ _ _ _ _ _ _).
  - reflexivity.
  - lia.
  - reflexivity.
  - intros j Hj. unfold py_gt, py_lt. simpl. lia.
  - reflexivity.
  - reflexivity.
  - repeat constructor.
  - reflexivity.
  - lia.
  - split; reflexivity.
Defined.

(** X11 on [M = 1], [N = 1]. *)
Lemma integer_M_terminates_witness :
  exists r,
    rejection_sampler (replay steady) 4 quarter g0 (int 1) (int 1)
      (uniform_proposal steady 0)
    = Some r.
Proof.
  apply (integer_M_terminates (replay steady) 4 quarter g0 1 1
           (uniform_proposal steady 0)).
  simpl. lia.
Defined.

(** X12 on a target that refuses points above 0.625: the first candidate,
    0.5, is accepted, the second, 0.75, makes [f] raise. *)
Lemma exception_in_pass_propagates_witness :
  rejection_sampler (replay once_low) 5
    (VCallable FunctionType (bounded_density 0.625 0.25)) g0 (int 1) (int 2)
    (uniform_proposal once_low 0)
  = Some (Raise (ValueError "x out of range"),
          World 4%nat (heap (uniform_proposal once_low 0))
            (fun _ => 0%float)).
Proof.
  refine (exception_in_pass_propagates (replay once_low) 1 5
    (bounded_density 0.625 0.25) 0%nat (NInt 1) 2 (NInt 2)
    (uniform_proposal once_low 0)
    (World 2%nat (heap (uniform_proposal once_low 0)) (fun _ => 0%float))
    (World 4%nat (heap (uniform_proposal once_low 0)) (fun _ => 0%float))
    [(Float64 0.5, 0.125, true)]%float [0.5%float]
    (ValueError "x out of range") _ _ _ _ _ _ _ _ _).
  - reflexivity.
  - lia.
  - reflexivity.
  - intros j Hj. unfold py_gt, py_lt. simpl. lia.
  - reflexivity.
  - repeat constructor.
  - simpl. lia.
  - reflexivity.
  - lia.
Defined.

(** X13 on [ProposalDistribution()] with [M = 1], [N = 1]. *)
Lemma unconfigured_proposal_raises_witness :
  exists self w',
    ProposalDistribution VNone VNone (fresh_world 0) = (Ok self, w') /\
    rng w' = rng (fresh_world 0) /\
    rejection_sampler (replay steady) 1 quarter (VInstance self) (int 1)
      (int 1) w'
    = Some (Raise NoneType_error, w').
Proof.
  apply (unconfigured_proposal_raises (replay steady) 1 (constant 0.25)
           VNone (NInt 1) 1 (NInt 1) (fresh_world 0)).
  - reflexivity.
  - lia.
  - reflexivity.
  - reflexivity.
  - lia.
Defined.

(** X14 on the run that leaves the loop on the budget [1 * 1 * 1]: two
    passes. *)
Lemma draws_within_budget_witness :
  exists K, Z.of_nat K <= Z.max 0 (1 + 1) /\
    ((exists ts,
        trials (replay steady) K quarter g0 (NInt 1)
          (uniform_proposal steady 0)
        = (Ok ts, World 4%nat (heap (uniform_proposal steady 0))
                    (fun _ => 0%float))) \/
     (exists e,
        trials (replay steady) K quarter g0 (NInt 1)
          (uniform_proposal steady 0)
        = (Raise e, World 4%nat (heap (uniform_proposal steady 0))
                      (fun _ => 0%float)) /\
        @Ok (list float) [0%float] = Raise e)).
Proof.
  apply (draws_within_budget (replay steady) 5 (constant 0.25) 0%nat
           (NInt 1) 1 (NInt 1) 1 (uniform_proposal steady 0)
           (World 4%nat (heap (uniform_proposal steady 0)) (fun _ => 0%float))
           (Ok [0%float])).
  - reflexivity.
  - lia.
  - reflexivity.
  - reflexivity.
  - reflexivity.
Defined.


(** X16 on [ProposalDistribution(lambda: 2.0, uniform().pdf)] with
    [f = lambda x: 0.25], [M = 1] and [N = 1]: the density of the uniform
    distribution on [0, 1] is a [numpy.float64] zero at 2.0, the ratio
    [0.25 / 0.0] is [inf], and 2.0 is returned. *)
Lemma float64_zero_density_goes_on_witness :
  let w := world_with (VCallable FunctionType (constant 2))
             (VCallable MethodType (uniform_pdf 0 1)) 0 in
  (0.25 / 0 =? infinity)%float = true /\
  rejection_sampler (replay steady) 5 quarter g0 (int 1) (int 1) w
  = Some (Ok [2%float], World 1%nat (heap w) (fun _ => 0%float)).
Proof.
  cbv zeta. split; [reflexivity|].
  refine (proj2 (proj2 (float64_zero_density_goes_on (replay steady) 5
    (constant 0.25) 0%nat (NInt 1) (NInt 1) _ (World 0%nat _ _)
    (World 1%nat _ _) (World 1%nat _ _) (World 1%nat _ _)
    (Py (NFloat 2)) 0.5%float (Py (NFloat 0.25)) (Float64 0) (Float64 0)
    0.25%float 0%float _ _ _ _ _ _ _ _ _ _ _ _ _)) 2%float _ _);
    first [lia | reflexivity].
Defined.
